(** * frame_cryptor.cpp: the FrameCryptor binding, embedded and verified

    The file under study is the C++ half of a foreign-function binding around
    the frame-encryption transformer of a real-time communication engine.
    Everything it does is: translate options, allocate engine objects, call
    their methods, and forward one callback.  The embedding below keeps that
    shape:

    - the engine (namespace [webrtc]) is an interface, [webrtc.Engine]: the
      state of each kind of engine object is an abstract type and each engine
      method used by the file is a function on that state;
    - objects reached through pointers live in a store ([World]), one heap per
      kind of object, addressed by [loc]; two pointers to one object are two
      copies of one [loc];
    - every call that leaves the file (into the engine or into the Rust
      observer) is also appended to [calls], the call log of the world;
    - a method is a computation [M A]: it reads and writes the world and may
      fail, which is how dereferencing a pointer that refers to no object
      (a null or dangling pointer) is represented.

    Each accessor of the source takes the object's mutex for the extent of its
    body; the semantics here is sequential, where that scoped lock is taken on
    entry, released on exit, and has no other effect. *)

From Stdlib Require Import ZArith String List Lia.
From Stdlib.Strings Require Import Byte.
From stdpp Require Import base list.

Local Open Scope Z_scope.

(** Addresses of heap objects. *)
Definition loc := nat.

(** A [rust::Box] owning the Rust-side observer wrapper; the box is opaque to
    the C++ side and is identified by a handle. *)
Definition RustBox := nat.

(* ------------------------------------------------------------------ *)
(** ** The wrapped engine, as this file sees it *)
(* ------------------------------------------------------------------ *)

Module webrtc.

(** [webrtc::FrameCryptorTransformer::Algorithm].  [kSm4Gcm] and [kSm4Cbc]
    are the enumerators named by the two returns that the translation has
    commented out. *)
Inductive Algorithm := kAesGcm | kAesCbc | kSm4Gcm | kSm4Cbc.

(** [webrtc::FrameCryptorTransformer::MediaType]. *)
Inductive MediaType := kAudioFrame | kVideoFrame.

(** [webrtc::FrameCryptionState], by the integer value of the enumerator. *)
Record FrameCryptionState := { underlying : Z }.

(** [webrtc::KeyProviderOptions]: the fields assigned by this file. *)
Record KeyProviderOptions := {
  shared_key : bool;
  ratchet_salt : list byte;
  ratchet_window_size : Z;
  failure_tolerance : Z;
}.

(** Assignment to one field of an options object. *)
Definition set_shared_key (v : bool) (o : KeyProviderOptions) :=
  {| shared_key := v; ratchet_salt := ratchet_salt o;
     ratchet_window_size := ratchet_window_size o;
     failure_tolerance := failure_tolerance o |}.
Definition set_ratchet_salt (v : list byte) (o : KeyProviderOptions) :=
  {| shared_key := shared_key o; ratchet_salt := v;
     ratchet_window_size := ratchet_window_size o;
     failure_tolerance := failure_tolerance o |}.
Definition set_ratchet_window_size (v : Z) (o : KeyProviderOptions) :=
  {| shared_key := shared_key o; ratchet_salt := ratchet_salt o;
     ratchet_window_size := v;
     failure_tolerance := failure_tolerance o |}.
Definition set_failure_tolerance (v : Z) (o : KeyProviderOptions) :=
  {| shared_key := shared_key o; ratchet_salt := ratchet_salt o;
     ratchet_window_size := ratchet_window_size o;
     failure_tolerance := v |}.

(** The engine's classes and the methods of them that the file calls.  A
    method that changes its object is a function from the old state of the
    object to the new one; a pointer argument is the [loc] it holds. *)
Class Engine := {
  Thread : Type;
  RtcRuntime : Type;
  signaling_thread : RtcRuntime -> Thread;
  PeerConnectionFactory : Type;
  rtc_runtime : PeerConnectionFactory -> RtcRuntime;

  MediaStreamTrackInterface : Type;
  kind : MediaStreamTrackInterface -> string;

  RtpSenderInterface : Type;
  (** [track()] of a sender; [None] is the null track. *)
  sender_track : RtpSenderInterface -> option MediaStreamTrackInterface;
  SetEncoderToPacketizerFrameTransformer :
    loc -> RtpSenderInterface -> RtpSenderInterface;

  RtpReceiverInterface : Type;
  receiver_track : RtpReceiverInterface -> option MediaStreamTrackInterface;
  SetDepacketizerToDecoderFrameTransformer :
    loc -> RtpReceiverInterface -> RtpReceiverInterface;

  (** A default-constructed [KeyProviderOptions]. *)
  KeyProviderOptions_default : KeyProviderOptions;
  DefaultKeyProviderImpl : Type;
  new_DefaultKeyProviderImpl : KeyProviderOptions -> DefaultKeyProviderImpl;

  FrameCryptorTransformer : Type;
  new_FrameCryptorTransformer :
    Thread -> string -> MediaType -> Algorithm -> loc ->
    FrameCryptorTransformer;
  SetEnabled : bool -> FrameCryptorTransformer -> FrameCryptorTransformer;
  enabled : FrameCryptorTransformer -> bool;
  SetKeyIndex : Z -> FrameCryptorTransformer -> FrameCryptorTransformer;
  key_index : FrameCryptorTransformer -> Z;
  RegisterFrameCryptorTransformerObserver :
    loc -> FrameCryptorTransformer -> FrameCryptorTransformer;
  UnRegisterFrameCryptorTransformerObserver :
    FrameCryptorTransformer -> FrameCryptorTransformer;
}.

(** What is expected of the enabled flag of a transformer, and is not a
    property of this file: [enabled()] reads what [SetEnabled] last wrote. *)
Class EngineLaws (E : Engine) : Prop := {
  enabled_SetEnabled :
    forall (b : bool) (t : FrameCryptorTransformer),
      enabled (SetEnabled b t) = b;
}.

End webrtc.

(* ------------------------------------------------------------------ *)
(** ** Types of the boundary (namespace livekit) *)
(* ------------------------------------------------------------------ *)

(** The boundary's [Algorithm].  It is an enum shared with Rust over an
    integer representation, so a value need not be one of the four named
    enumerators: [Algorithm_unnamed] stands for every other value, the ones
    that reach the [default:] label of a switch. *)
Inductive Algorithm :=
| AesGcm
| AesCbc
| Sm4Gcm
| Sm4Cbc
| Algorithm_unnamed (repr : Z).

(** The boundary's [FrameCryptionState], by the integer value it holds. *)
Record FrameCryptionState := { repr : Z }.

(** [static_cast<FrameCryptionState>(state)]: an enumeration-to-enumeration
    cast keeps the integer value. *)
Definition static_cast_FrameCryptionState
    (state : webrtc.FrameCryptionState) : FrameCryptionState :=
  {| repr := webrtc.underlying state |}.

(** The boundary's [KeyProviderOptions]. *)
Record KeyProviderOptions := {
  shared_key : bool;
  ratchet_salt : list byte;
  ratchet_window_size : Z;
  failure_tolerance : Z;
}.

(** [livekit::KeyProvider]: owns the engine's key provider through [impl_]. *)
Record KeyProvider := { impl_ : loc }.

(** [rtc_key_provider()] hands out the pointer held in [impl_]. *)
Definition rtc_key_provider (kp : KeyProvider) : loc := impl_ kp.

(** [livekit::RtpSender] and [livekit::RtpReceiver] wrap an engine endpoint. *)
Record RtpSender := { rtc_sender : loc }.
Record RtpReceiver := { rtc_receiver : loc }.

Module NativeFrameCryptorObserver.
(** The observer object handed to the transformer: the Rust box it forwards
    to and a back pointer to the FrameCryptor that created it. *)
Record t := mk { observer_ : RustBox; fc_ : loc }.
End NativeFrameCryptorObserver.

(* ------------------------------------------------------------------ *)
(** ** Option translation *)
(* ------------------------------------------------------------------ *)

Definition AlgorithmToFrameCryptorAlgorithm (algorithm : Algorithm)
    : webrtc.Algorithm :=
  match algorithm with
  | AesGcm => webrtc.kAesGcm
  | AesCbc => webrtc.kAesCbc
  | Sm4Gcm =>
      (* return webrtc::FrameCryptorTransformer::Algorithm::kSm4Gcm; *)
      webrtc.kAesGcm
  | Sm4Cbc =>
      (* return webrtc::FrameCryptorTransformer::Algorithm::kSm4Cbc; *)
      webrtc.kAesGcm
  | Algorithm_unnamed _ => webrtc.kAesGcm
  end.

(** The translation as the names of the enumerators read: each named
    algorithm of the boundary goes to the engine algorithm of the same name.
    This is the reference [AlgorithmToFrameCryptorAlgorithm] is compared
    with; it is not the code. *)
Definition algorithm_of_the_same_name (algorithm : Algorithm)
    : option webrtc.Algorithm :=
  match algorithm with
  | AesGcm => Some webrtc.kAesGcm
  | AesCbc => Some webrtc.kAesCbc
  | Sm4Gcm => Some webrtc.kSm4Gcm
  | Sm4Cbc => Some webrtc.kSm4Cbc
  | Algorithm_unnamed _ => None
  end.

(** [std::copy(first, last, std::back_inserter(out))]: every element of the
    input range, front to back, is pushed at the back of [out]. *)
Fixpoint std_copy_back_inserter {A : Type} (input out : list A) : list A :=
  match input with
  | [] => out
  | x :: rest => std_copy_back_inserter rest (out ++ [x])
  end.

(* ------------------------------------------------------------------ *)
(** ** The store, the call log and the computations over them *)
(* ------------------------------------------------------------------ *)

Section Binding.

Context {E : webrtc.Engine}.

(** [livekit::FrameCryptor].  [sender_] or [receiver_] is the null pointer
    ([None]) in an object built by the other constructor, and [observer_]
    is the one field a method assigns after construction. *)
Record FrameCryptor := {
  rtc_runtime_ : webrtc.RtcRuntime;
  participant_id_ : string;
  key_provider_ : loc;
  sender_ : option loc;
  receiver_ : option loc;
  e2ee_transformer_ : loc;
  observer_ : option loc;
}.

Definition set_observer_ (o : option loc) (fc : FrameCryptor)
    : FrameCryptor :=
  {| rtc_runtime_ := rtc_runtime_ fc;
     participant_id_ := participant_id_ fc;
     key_provider_ := key_provider_ fc;
     sender_ := sender_ fc;
     receiver_ := receiver_ fc;
     e2ee_transformer_ := e2ee_transformer_ fc;
     observer_ := o |}.

(** A call that leaves this file, with the objects it is made on and its
    arguments. *)
Inductive Call :=
| Call_new_DefaultKeyProviderImpl
    (result : loc) (options : webrtc.KeyProviderOptions)
| Call_new_FrameCryptorTransformer
    (result : loc) (signaling_thread : webrtc.Thread)
    (participant_id : string) (media_type : webrtc.MediaType)
    (algorithm : webrtc.Algorithm) (key_provider : loc)
| Call_SetEncoderToPacketizerFrameTransformer (sender transformer : loc)
| Call_SetDepacketizerToDecoderFrameTransformer (receiver transformer : loc)
| Call_SetEnabled (transformer : loc) (enabled : bool)
| Call_enabled (transformer : loc)
| Call_SetKeyIndex (transformer : loc) (index : Z)
| Call_key_index (transformer : loc)
| Call_RegisterFrameCryptorTransformerObserver (transformer observer : loc)
| Call_UnRegisterFrameCryptorTransformerObserver (transformer : loc)
| Call_on_frame_cryption_state_change
    (rust_observer : RustBox) (participant_id : string)
    (state : FrameCryptionState).

Record World := {
  key_providers : list webrtc.DefaultKeyProviderImpl;
  transformers : list webrtc.FrameCryptorTransformer;
  senders : list webrtc.RtpSenderInterface;
  receivers : list webrtc.RtpReceiverInterface;
  observers : list NativeFrameCryptorObserver.t;
  frame_cryptors : list FrameCryptor;
  calls : list Call;
}.

Definition with_key_providers (f : _ -> _) (w : World) : World :=
  {| key_providers := f (key_providers w); transformers := transformers w;
     senders := senders w; receivers := receivers w;
     observers := observers w; frame_cryptors := frame_cryptors w;
     calls := calls w |}.

Definition with_transformers (f : _ -> _) (w : World) : World :=
  {| key_providers := key_providers w; transformers := f (transformers w);
     senders := senders w; receivers := receivers w;
     observers := observers w; frame_cryptors := frame_cryptors w;
     calls := calls w |}.

Definition with_senders (f : _ -> _) (w : World) : World :=
  {| key_providers := key_providers w; transformers := transformers w;
     senders := f (senders w); receivers := receivers w;
     observers := observers w; frame_cryptors := frame_cryptors w;
     calls := calls w |}.

Definition with_receivers (f : _ -> _) (w : World) : World :=
  {| key_providers := key_providers w; transformers := transformers w;
     senders := senders w; receivers := f (receivers w);
     observers := observers w; frame_cryptors := frame_cryptors w;
     calls := calls w |}.

Definition with_observers (f : _ -> _) (w : World) : World :=
  {| key_providers := key_providers w; transformers := transformers w;
     senders := senders w; receivers := receivers w;
     observers := f (observers w); frame_cryptors := frame_cryptors w;
     calls := calls w |}.

Definition with_frame_cryptors (f : _ -> _) (w : World) : World :=
  {| key_providers := key_providers w; transformers := transformers w;
     senders := senders w; receivers := receivers w;
     observers := observers w; frame_cryptors := f (frame_cryptors w);
     calls := calls w |}.

Definition with_calls (f : _ -> _) (w : World) : World :=
  {| key_providers := key_providers w; transformers := transformers w;
     senders := senders w; receivers := receivers w;
     observers := observers w; frame_cryptors := frame_cryptors w;
     calls := f (calls w) |}.

(** Computations: a world in, a result and a world out, or no outcome. *)
Definition M (A : Type) : Type := World -> option (A * World).

Definition ret {A : Type} (a : A) : M A := fun w => Some (a, w).

Definition bind {A B : Type} (m : M A) (k : A -> M B) : M B :=
  fun w => match m w with
           | Some (a, w') => k a w'
           | None => None
           end.

(** Reading through a pointer: the heap is selected by [heap], and a
    pointer to no object has no outcome. *)
Definition deref {A : Type} (heap : World -> list A) (p : loc) : M A :=
  fun w => match heap w !! p with
           | Some obj => Some (obj, w)
           | None => None
           end.

(** Going through a pointer that may be null. *)
Definition non_null {A : Type} (p : option A) : M A :=
  fun w => match p with
           | Some obj => Some (obj, w)
           | None => None
           end.

Definition modify (f : World -> World) : M unit :=
  fun w => Some (tt, f w).

(** Allocation places the object behind the last one of its heap. *)
Definition alloc {A : Type} (heap : World -> list A)
    (with_heap : (list A -> list A) -> World -> World) (obj : A) : M loc :=
  fun w => Some (length (heap w), with_heap (fun h => h ++ [obj]) w).

Definition log (c : Call) : M unit :=
  modify (with_calls (fun cs => cs ++ [c])).

End Binding.

Notation "'let*' x ':=' m 'in' k" := (bind m (fun x => k))
  (at level 10, x name, m at level 100, k at level 200).
Notation "m ;; k" := (bind m (fun _ => k))
  (at level 100, k at level 200, right associativity).

(* ------------------------------------------------------------------ *)
(** ** The methods of frame_cryptor.cpp *)
(* ------------------------------------------------------------------ *)

Section Methods.

Context {E : webrtc.Engine}.

(** [p->method(args)] on an engine object that the method changes: the
    object behind [p] is replaced by its new state and the call is logged.
    The call has no outcome when [p] points to no object. *)
Definition invoke {A : Type} (heap : World -> list A)
    (with_heap : (list A -> list A) -> World -> World)
    (p : loc) (method : A -> A) (c : Call) : M unit :=
  let* obj := deref heap p in
  modify (with_heap (fun h => <[p := method obj]> h)) ;;
  log c.

(** [p->getter()] on an engine object: the call is logged and the object
    is left as it is. *)
Definition query {A B : Type} (heap : World -> list A)
    (p : loc) (getter : A -> B) (c : Call) : M B :=
  let* obj := deref heap p in
  log c ;;
  ret (getter obj).

(** [KeyProvider::KeyProvider(KeyProviderOptions options)] *)
Definition KeyProvider_ctor (options : KeyProviderOptions) : M KeyProvider :=
  let rtc_options := webrtc.KeyProviderOptions_default in
  let rtc_options := webrtc.set_shared_key (shared_key options) rtc_options in
  let ratchet_salt := std_copy_back_inserter (ratchet_salt options) [] in
  let rtc_options := webrtc.set_ratchet_salt ratchet_salt rtc_options in
  let rtc_options :=
    webrtc.set_ratchet_window_size (ratchet_window_size options)
      rtc_options in
  let rtc_options :=
    webrtc.set_failure_tolerance (failure_tolerance options) rtc_options in
  let* impl := alloc key_providers with_key_providers
                 (webrtc.new_DefaultKeyProviderImpl rtc_options) in
  log (Call_new_DefaultKeyProviderImpl impl rtc_options) ;;
  ret {| impl_ := impl |}.

(** The media type both constructors compute from the kind of the track. *)
Definition mediaType_of_kind (kind : string) : webrtc.MediaType :=
  if String.eqb kind "audio" then webrtc.kAudioFrame
  else webrtc.kVideoFrame.

(** [new webrtc::FrameCryptorTransformer(...)] *)
Definition new_transformer (thread : webrtc.Thread) (participant_id : string)
    (mediaType : webrtc.MediaType) (algorithm : webrtc.Algorithm)
    (key_provider : loc) : M loc :=
  let* t := alloc transformers with_transformers
              (webrtc.new_FrameCryptorTransformer
                 thread participant_id mediaType algorithm key_provider) in
  log (Call_new_FrameCryptorTransformer
         t thread participant_id mediaType algorithm key_provider) ;;
  ret t.

(** [FrameCryptor::FrameCryptor(rtc_runtime, participant_id, algorithm,
    key_provider, sender)] *)
Definition FrameCryptor_ctor_sender (rtc_runtime : webrtc.RtcRuntime)
    (participant_id : string) (algorithm : webrtc.Algorithm)
    (key_provider : loc) (sender : loc) : M FrameCryptor :=
  let* sender_obj := deref senders sender in
  let* track := non_null (webrtc.sender_track sender_obj) in
  let mediaType := mediaType_of_kind (webrtc.kind track) in
  let* e2ee_transformer :=
    new_transformer (webrtc.signaling_thread rtc_runtime)
      participant_id mediaType algorithm key_provider in
  invoke senders with_senders sender
    (webrtc.SetEncoderToPacketizerFrameTransformer e2ee_transformer)
    (Call_SetEncoderToPacketizerFrameTransformer sender e2ee_transformer) ;;
  invoke transformers with_transformers e2ee_transformer
    (webrtc.SetEnabled false) (Call_SetEnabled e2ee_transformer false) ;;
  ret {| rtc_runtime_ := rtc_runtime;
         participant_id_ := participant_id;
         key_provider_ := key_provider;
         sender_ := Some sender;
         receiver_ := None;
         e2ee_transformer_ := e2ee_transformer;
         observer_ := None |}.

(** [FrameCryptor::FrameCryptor(rtc_runtime, participant_id, algorithm,
    key_provider, receiver)] *)
Definition FrameCryptor_ctor_receiver (rtc_runtime : webrtc.RtcRuntime)
    (participant_id : string) (algorithm : webrtc.Algorithm)
    (key_provider : loc) (receiver : loc) : M FrameCryptor :=
  let* receiver_obj := deref receivers receiver in
  let* track := non_null (webrtc.receiver_track receiver_obj) in
  let mediaType := mediaType_of_kind (webrtc.kind track) in
  let* e2ee_transformer :=
    new_transformer (webrtc.signaling_thread rtc_runtime)
      participant_id mediaType algorithm key_provider in
  invoke receivers with_receivers receiver
    (webrtc.SetDepacketizerToDecoderFrameTransformer e2ee_transformer)
    (Call_SetDepacketizerToDecoderFrameTransformer
       receiver e2ee_transformer) ;;
  invoke transformers with_transformers e2ee_transformer
    (webrtc.SetEnabled false) (Call_SetEnabled e2ee_transformer false) ;;
  ret {| rtc_runtime_ := rtc_runtime;
         participant_id_ := participant_id;
         key_provider_ := key_provider;
         sender_ := None;
         receiver_ := Some receiver;
         e2ee_transformer_ := e2ee_transformer;
         observer_ := None |}.

(** [FrameCryptor::unregister_observer()] *)
Definition unregister_observer (this : loc) : M unit :=
  let* fc := deref frame_cryptors this in
  modify (with_frame_cryptors
            (fun h => <[this := set_observer_ None fc]> h)) ;;
  invoke transformers with_transformers (e2ee_transformer_ fc)
    webrtc.UnRegisterFrameCryptorTransformerObserver
    (Call_UnRegisterFrameCryptorTransformerObserver (e2ee_transformer_ fc)).

(** [FrameCryptor::~FrameCryptor()] *)
Definition FrameCryptor_dtor (this : loc) : M unit :=
  let* fc := deref frame_cryptors this in
  match observer_ fc with
  | Some _ => unregister_observer this
  | None => ret tt
  end.

(** [FrameCryptor::register_observer(observer)] *)
Definition register_observer (this : loc) (observer : RustBox) : M unit :=
  let* fc := deref frame_cryptors this in
  let* o := alloc observers with_observers
              (NativeFrameCryptorObserver.mk observer this) in
  modify (with_frame_cryptors
            (fun h => <[this := set_observer_ (Some o) fc]> h)) ;;
  invoke transformers with_transformers (e2ee_transformer_ fc)
    (webrtc.RegisterFrameCryptorTransformerObserver o)
    (Call_RegisterFrameCryptorTransformerObserver (e2ee_transformer_ fc) o).

(** [NativeFrameCryptorObserver::OnFrameCryptionStateChanged(participant_id,
    state)] *)
Definition OnFrameCryptionStateChanged (this : loc)
    (participant_id : string) (state : webrtc.FrameCryptionState) : M unit :=
  let* self := deref observers this in
  log (Call_on_frame_cryption_state_change
         (NativeFrameCryptorObserver.observer_ self)
         participant_id (static_cast_FrameCryptionState state)).

(** [FrameCryptor::set_enabled(bool enabled)] *)
Definition set_enabled (this : loc) (enabled : bool) : M unit :=
  let* fc := deref frame_cryptors this in
  invoke transformers with_transformers (e2ee_transformer_ fc)
    (webrtc.SetEnabled enabled) (Call_SetEnabled (e2ee_transformer_ fc) enabled).

(** [FrameCryptor::enabled()] *)
Definition enabled (this : loc) : M bool :=
  let* fc := deref frame_cryptors this in
  query transformers (e2ee_transformer_ fc)
    webrtc.enabled (Call_enabled (e2ee_transformer_ fc)).

(** [FrameCryptor::set_key_index(int32_t index)].  The index is an
    [int32_t] here and an [int] in the engine, two types of the same width:
    it is handed over, and handed back by [key_index], as the same
    integer. *)
Definition set_key_index (this : loc) (index : Z) : M unit :=
  let* fc := deref frame_cryptors this in
  invoke transformers with_transformers (e2ee_transformer_ fc)
    (webrtc.SetKeyIndex index) (Call_SetKeyIndex (e2ee_transformer_ fc) index).

(** [FrameCryptor::key_index()] *)
Definition key_index (this : loc) : M Z :=
  let* fc := deref frame_cryptors this in
  query transformers (e2ee_transformer_ fc)
    webrtc.key_index (Call_key_index (e2ee_transformer_ fc)).

(** [new_key_provider(options)] *)
Definition new_key_provider (options : KeyProviderOptions) : M KeyProvider :=
  KeyProvider_ctor options.

(** [new_frame_cryptor_for_rtp_sender(...)]: the object is built by the
    sender constructor and placed on the heap by [std::make_shared]. *)
Definition new_frame_cryptor_for_rtp_sender
    (peer_factory : webrtc.PeerConnectionFactory) (participant_id : string)
    (algorithm : Algorithm) (key_provider : KeyProvider)
    (sender : RtpSender) : M loc :=
  let* fc := FrameCryptor_ctor_sender
               (webrtc.rtc_runtime peer_factory) participant_id
               (AlgorithmToFrameCryptorAlgorithm algorithm)
               (rtc_key_provider key_provider) (rtc_sender sender) in
  alloc frame_cryptors with_frame_cryptors fc.

(** [new_frame_cryptor_for_rtp_receiver(...)] *)
Definition new_frame_cryptor_for_rtp_receiver
    (peer_factory : webrtc.PeerConnectionFactory) (participant_id : string)
    (algorithm : Algorithm) (key_provider : KeyProvider)
    (receiver : RtpReceiver) : M loc :=
  let* fc := FrameCryptor_ctor_receiver
               (webrtc.rtc_runtime peer_factory) participant_id
               (AlgorithmToFrameCryptorAlgorithm algorithm)
               (rtc_key_provider key_provider) (rtc_receiver receiver) in
  alloc frame_cryptors with_frame_cryptors fc.

(** The two constructors are one overloaded name, told apart by the kind
    of endpoint passed last; so are the two factory functions here. *)
Inductive Endpoint :=
| Sender (sender : loc)
| Receiver (receiver : loc).

Definition FrameCryptor_ctor (rtc_runtime : webrtc.RtcRuntime)
    (participant_id : string) (algorithm : webrtc.Algorithm)
    (key_provider : loc) (endpoint : Endpoint) : M FrameCryptor :=
  match endpoint with
  | Sender sender =>
      FrameCryptor_ctor_sender
        rtc_runtime participant_id algorithm key_provider sender
  | Receiver receiver =>
      FrameCryptor_ctor_receiver
        rtc_runtime participant_id algorithm key_provider receiver
  end.

Definition new_frame_cryptor (peer_factory : webrtc.PeerConnectionFactory)
    (participant_id : string) (algorithm : Algorithm)
    (key_provider : KeyProvider) (endpoint : Endpoint) : M loc :=
  match endpoint with
  | Sender sender =>
      new_frame_cryptor_for_rtp_sender peer_factory participant_id
        algorithm key_provider {| rtc_sender := sender |}
  | Receiver receiver =>
      new_frame_cryptor_for_rtp_receiver peer_factory participant_id
        algorithm key_provider {| rtc_receiver := receiver |}
  end.

(** [endpoint->track()] in a given world. *)
Definition endpoint_track (w : World) (endpoint : Endpoint)
    : option webrtc.MediaStreamTrackInterface :=
  match endpoint with
  | Sender sender =>
      match senders w !! sender with
      | Some obj => webrtc.sender_track obj
      | None => None
      end
  | Receiver receiver =>
      match receivers w !! receiver with
      | Some obj => webrtc.receiver_track obj
      | None => None
      end
  end.

(** The world after [endpoint->Set...FrameTransformer(transformer)]. *)
Definition install (endpoint : Endpoint) (transformer : loc) (w : World)
    : World :=
  match endpoint with
  | Sender sender =>
      match senders w !! sender with
      | Some obj =>
          with_senders
            (fun h => <[sender :=
                          webrtc.SetEncoderToPacketizerFrameTransformer
                            transformer obj]> h) w
      | None => w
      end
  | Receiver receiver =>
      match receivers w !! receiver with
      | Some obj =>
          with_receivers
            (fun h => <[receiver :=
                          webrtc.SetDepacketizerToDecoderFrameTransformer
                            transformer obj]> h) w
      | None => w
      end
  end.

Definition Call_install (endpoint : Endpoint) (transformer : loc) : Call :=
  match endpoint with
  | Sender sender =>
      Call_SetEncoderToPacketizerFrameTransformer sender transformer
  | Receiver receiver =>
      Call_SetDepacketizerToDecoderFrameTransformer receiver transformer
  end.

(** *** The history of one transformer, read off the call log *)

(** The observer registered on transformer [t] after the calls [cs]: the
    argument of the last registration not followed by an unregistration.
    A transformer that has just been created has none. *)
Definition registered_step (t : loc) (acc : option loc) (c : Call)
    : option loc :=
  match c with
  | Call_new_FrameCryptorTransformer r _ _ _ _ _ =>
      if Nat.eqb r t then None else acc
  | Call_RegisterFrameCryptorTransformerObserver r o =>
      if Nat.eqb r t then Some o else acc
  | Call_UnRegisterFrameCryptorTransformerObserver r =>
      if Nat.eqb r t then None else acc
  | _ => acc
  end.

Definition registered_observer (cs : list Call) (t : loc) : option loc :=
  fold_left (registered_step t) cs None.

(** The media type transformer [t] was created with, after the calls
    [cs]. *)
Definition creation_step (t : loc) (acc : option webrtc.MediaType)
    (c : Call) : option webrtc.MediaType :=
  match c with
  | Call_new_FrameCryptorTransformer r _ _ mt _ _ =>
      if Nat.eqb r t then Some mt else acc
  | _ => acc
  end.

Definition creation_media_type (cs : list Call) (t : loc)
    : option webrtc.MediaType :=
  fold_left (creation_step t) cs None.

(** How many transformers the calls [cs] create. *)
Definition is_new_transformer (c : Call) : bool :=
  match c with
  | Call_new_FrameCryptorTransformer _ _ _ _ _ _ => true
  | _ => false
  end.

Definition transformers_created (cs : list Call) : nat :=
  length (List.filter is_new_transformer cs).

(** The invariant on the observer of the FrameCryptor at [this]: the
    object and its transformer exist, and [observer_] is non-null exactly
    when an observer is registered on the transformer. *)
Definition observer_invariant (w : World) (this : loc) : Prop :=
  exists fc,
    frame_cryptors w !! this = Some fc /\
    is_Some (transformers w !! e2ee_transformer_ fc) /\
    (is_Some (observer_ fc) <->
     is_Some (registered_observer (calls w) (e2ee_transformer_ fc))).

(** The methods a holder of a FrameCryptor can call on it. *)
Inductive Method :=
| Method_register_observer (observer : RustBox)
| Method_unregister_observer
| Method_set_enabled (enabled : bool)
| Method_enabled
| Method_set_key_index (index : Z)
| Method_key_index
| Method_dtor.

Definition call_method (this : loc) (m : Method) : M unit :=
  match m with
  | Method_register_observer observer => register_observer this observer
  | Method_unregister_observer => unregister_observer this
  | Method_set_enabled b => set_enabled this b
  | Method_enabled => enabled this ;; ret tt
  | Method_set_key_index index => set_key_index this index
  | Method_key_index => key_index this ;; ret tt
  | Method_dtor => FrameCryptor_dtor this
  end.

(** *** Worlds as a whole *)

(** [c] is a method call on the transformer at [p]. *)
Definition on_transformer (p : loc) (c : Call) : bool :=
  match c with
  | Call_SetEnabled r _
  | Call_enabled r
  | Call_SetKeyIndex r _
  | Call_key_index r
  | Call_RegisterFrameCryptorTransformerObserver r _
  | Call_UnRegisterFrameCryptorTransformerObserver r => Nat.eqb r p
  | _ => false
  end.

(** A FrameCryptor holds one endpoint: the sender or the receiver it was
    built for, the other pointer being null. *)
Definition one_endpoint (fc : FrameCryptor) : Prop :=
  (is_Some (sender_ fc) /\ receiver_ fc = None) \/
  (sender_ fc = None /\ is_Some (receiver_ fc)).

(** A world is well formed when every FrameCryptor in it holds one endpoint
    and points to a transformer that exists, and no two FrameCryptors point
    to the same transformer. *)
Definition well_formed (w : World) : Prop :=
  (forall (this : loc) (fc : FrameCryptor),
     frame_cryptors w !! this = Some fc ->
     one_endpoint fc /\
     is_Some (transformers w !! e2ee_transformer_ fc)) /\
  (forall (this other : loc) (fc fc' : FrameCryptor),
     frame_cryptors w !! this = Some fc ->
     frame_cryptors w !! other = Some fc' ->
     e2ee_transformer_ fc = e2ee_transformer_ fc' ->
     this = other).

(** A world is consistent when it is well formed and the observer invariant
    holds of every FrameCryptor in it. *)
Definition consistent (w : World) : Prop :=
  well_formed w /\
  (forall (this : loc) (fc : FrameCryptor),
     frame_cryptors w !! this = Some fc -> observer_invariant w this).

(** The worlds a program can be in: it starts without any FrameCryptor, and
    from then on it makes key providers and FrameCryptors through the
    factory functions, calls methods of FrameCryptors, and the engine
    reports state changes to observers and changes its endpoints as it
    likes.  Only steps that return lead anywhere. *)
Inductive reachable : World -> Prop :=
| reachable_start (w : World) :
    frame_cryptors w = [] -> reachable w
| reachable_new_key_provider (w w' : World) (options : KeyProviderOptions)
    (kp : KeyProvider) :
    reachable w ->
    new_key_provider options w = Some (kp, w') ->
    reachable w'
| reachable_new_frame_cryptor (w w' : World)
    (peer_factory : webrtc.PeerConnectionFactory) (participant_id : string)
    (algorithm : Algorithm) (key_provider : KeyProvider)
    (endpoint : Endpoint) (this : loc) :
    reachable w ->
    new_frame_cryptor peer_factory participant_id algorithm key_provider
      endpoint w = Some (this, w') ->
    reachable w'
| reachable_call_method (w w' : World) (this : loc) (m : Method) :
    reachable w ->
    call_method this m w = Some (tt, w') ->
    reachable w'
| reachable_state_change (w w' : World) (observer : loc)
    (participant_id : string) (state : webrtc.FrameCryptionState) :
    reachable w ->
    OnFrameCryptionStateChanged observer participant_id state w =
      Some (tt, w') ->
    reachable w'
| reachable_engine (w : World)
    (f : list webrtc.RtpSenderInterface -> list webrtc.RtpSenderInterface)
    (g : list webrtc.RtpReceiverInterface ->
         list webrtc.RtpReceiverInterface) :
    reachable w ->
    reachable (with_senders f (with_receivers g w)).

End Methods.

(* ------------------------------------------------------------------ *)
(** ** A small engine, to run the binding on concrete worlds *)
(* ------------------------------------------------------------------ *)

Module reference.

(** A transformer that remembers what it was built from and keeps an
    enabled flag, a key index and the registered observer.  It starts
    enabled, so that a later [SetEnabled false] is visible. *)
Record Transformer := {
  signaling_thread_ : nat;
  participant_id_ : string;
  media_type_ : webrtc.MediaType;
  algorithm_ : webrtc.Algorithm;
  key_provider_ : loc;
  enabled_cryption_ : bool;
  key_index_ : Z;
  observer_ : option loc;
}.

(** A sender or receiver: the kind of its track, if it has one, and the
    frame transformer installed in its pipeline. *)
Record Endpoint := {
  track_ : option string;
  frame_transformer_ : option loc;
}.

Definition engine : webrtc.Engine := {|
  webrtc.Thread := nat;
  webrtc.RtcRuntime := nat;
  webrtc.signaling_thread := fun rt => rt;
  webrtc.PeerConnectionFactory := nat;
  webrtc.rtc_runtime := fun pf => pf;
  webrtc.MediaStreamTrackInterface := string;
  webrtc.kind := fun k => k;
  webrtc.RtpSenderInterface := Endpoint;
  webrtc.sender_track := track_;
  webrtc.SetEncoderToPacketizerFrameTransformer := fun t s =>
    {| track_ := track_ s; frame_transformer_ := Some t |};
  webrtc.RtpReceiverInterface := Endpoint;
  webrtc.receiver_track := track_;
  webrtc.SetDepacketizerToDecoderFrameTransformer := fun t r =>
    {| track_ := track_ r; frame_transformer_ := Some t |};
  webrtc.KeyProviderOptions_default :=
    {| webrtc.shared_key := false; webrtc.ratchet_salt := [];
       webrtc.ratchet_window_size := 0; webrtc.failure_tolerance := -1 |};
  webrtc.DefaultKeyProviderImpl := webrtc.KeyProviderOptions;
  webrtc.new_DefaultKeyProviderImpl := fun o => o;
  webrtc.FrameCryptorTransformer := Transformer;
  webrtc.new_FrameCryptorTransformer := fun th pid mt alg kp =>
    {| signaling_thread_ := th; participant_id_ := pid; media_type_ := mt;
       algorithm_ := alg; key_provider_ := kp; enabled_cryption_ := true;
       key_index_ := 0; observer_ := None |};
  webrtc.SetEnabled := fun b t =>
    {| signaling_thread_ := signaling_thread_ t;
       participant_id_ := participant_id_ t; media_type_ := media_type_ t;
       algorithm_ := algorithm_ t; key_provider_ := key_provider_ t;
       enabled_cryption_ := b;
       key_index_ := key_index_ t; observer_ := observer_ t |};
  webrtc.enabled := enabled_cryption_;
  webrtc.SetKeyIndex := fun i t =>
    {| signaling_thread_ := signaling_thread_ t;
       participant_id_ := participant_id_ t; media_type_ := media_type_ t;
       algorithm_ := algorithm_ t; key_provider_ := key_provider_ t;
       enabled_cryption_ := enabled_cryption_ t;
       key_index_ := i; observer_ := observer_ t |};
  webrtc.key_index := key_index_;
  webrtc.RegisterFrameCryptorTransformerObserver := fun o t =>
    {| signaling_thread_ := signaling_thread_ t;
       participant_id_ := participant_id_ t; media_type_ := media_type_ t;
       algorithm_ := algorithm_ t; key_provider_ := key_provider_ t;
       enabled_cryption_ := enabled_cryption_ t;
       key_index_ := key_index_ t; observer_ := Some o |};
  webrtc.UnRegisterFrameCryptorTransformerObserver := fun t =>
    {| signaling_thread_ := signaling_thread_ t;
       participant_id_ := participant_id_ t; media_type_ := media_type_ t;
       algorithm_ := algorithm_ t; key_provider_ := key_provider_ t;
       enabled_cryption_ := enabled_cryption_ t;
       key_index_ := key_index_ t; observer_ := None |};
|}.

(** A world with one sender carrying an audio track (address 0), one
    sender without a track (address 1), one receiver carrying a video
    track (address 0) and one receiver whose track has a kind that is
    neither audio nor video (address 1). *)
Definition world0 : World (E := engine) :=
  Build_World (E := engine)
    []
    []
    [ {| track_ := Some "audio"%string; frame_transformer_ := None |};
      {| track_ := None; frame_transformer_ := None |} ]
    [ {| track_ := Some "video"%string; frame_transformer_ := None |};
      {| track_ := Some "data"%string; frame_transformer_ := None |} ]
    []
    []
    [].

(** [world0] after a FrameCryptor has been made for the audio sender. *)
Definition world1 : World (E := engine) :=
  match new_frame_cryptor (E := engine) 7%nat "alice"%string Sm4Gcm
          {| impl_ := 0%nat |} (Sender 0%nat) world0 with
  | Some (_, w) => w
  | None => world0
  end.

(** [world1] after an observer has been registered on that FrameCryptor. *)
Definition world2 : World (E := engine) :=
  match register_observer (E := engine) 0%nat 42%nat world1 with
  | Some (_, w) => w
  | None => world1
  end.

(** The FrameCryptor of [world1] and [world2] and its transformer. *)
Definition fc1 : FrameCryptor (E := engine) :=
  Build_FrameCryptor (E := engine)
    7%nat "alice"%string 0%nat (Some 0%nat) None 0%nat None.

Definition t1 : Transformer :=
  {| signaling_thread_ := 7; participant_id_ := "alice"%string;
     media_type_ := webrtc.kAudioFrame; algorithm_ := webrtc.kAesGcm;
     key_provider_ := 0%nat; enabled_cryption_ := false;
     key_index_ := 0; observer_ := None |}.

Definition fc2 : FrameCryptor (E := engine) :=
  Build_FrameCryptor (E := engine)
    7%nat "alice"%string 0%nat (Some 0%nat) None 0%nat (Some 0%nat).

(** [world2] after a second FrameCryptor has been made, for the video
    receiver; that FrameCryptor and its transformer. *)
Definition world3 : World (E := engine) :=
  match new_frame_cryptor (E := engine) 7%nat "bob"%string AesCbc
          {| impl_ := 0%nat |} (Receiver 0%nat) world2 with
  | Some (_, w) => w
  | None => world2
  end.

Definition fc3 : FrameCryptor (E := engine) :=
  Build_FrameCryptor (E := engine)
    7%nat "bob"%string 0%nat None (Some 0%nat) 1%nat None.

Definition t3 : Transformer :=
  {| signaling_thread_ := 7; participant_id_ := "bob"%string;
     media_type_ := webrtc.kVideoFrame; algorithm_ := webrtc.kAesCbc;
     key_provider_ := 0%nat; enabled_cryption_ := false;
     key_index_ := 0; observer_ := None |}.

(** The transformer of [fc2] in [world2] and [world3]. *)
Definition t2 : Transformer :=
  {| signaling_thread_ := 7; participant_id_ := "alice"%string;
     media_type_ := webrtc.kAudioFrame; algorithm_ := webrtc.kAesGcm;
     key_provider_ := 0%nat; enabled_cryption_ := false;
     key_index_ := 0; observer_ := Some 0%nat |}.

Lemma engine_laws : webrtc.EngineLaws engine.
Proof. split; intros; reflexivity. Qed.

End reference.


(* ------------------------------------------------------------------ *)
(** ** Running computations *)
(* ------------------------------------------------------------------ *)

Section Running.

Context {E : webrtc.Engine}.

Lemma bind_run {A B : Type} (m : M A) (k : A -> M B) (w w1 : World) (a : A) :
  m w = Some (a, w1) -> bind m k w = k a w1.
Proof. intros Hm. unfold bind. now rewrite Hm. Qed.

Lemma deref_run {A : Type} (heap : World -> list A) (p : loc) (w : World)
    (obj : A) :
  heap w !! p = Some obj -> deref heap p w = Some (obj, w).
Proof. intros Hp. unfold deref. now rewrite Hp. Qed.

Lemma invoke_run {A : Type} (heap : World -> list A)
    (with_heap : (list A -> list A) -> World -> World)
    (p : loc) (method : A -> A) (c : Call) (w : World) (obj : A) :
  heap w !! p = Some obj ->
  invoke heap with_heap p method c w =
  Some (tt, with_calls (fun cs => cs ++ [c])
              (with_heap (fun h => <[p := method obj]> h) w)).
Proof.
  intros Hp. unfold invoke.
  rewrite (bind_run _ _ _ _ _ (deref_run heap p w obj Hp)).
  reflexivity.
Qed.

Lemma query_run {A B : Type} (heap : World -> list A) (p : loc)
    (getter : A -> B) (c : Call) (w : World) (obj : A) :
  heap w !! p = Some obj ->
  query heap p getter c w =
  Some (getter obj, with_calls (fun cs => cs ++ [c]) w).
Proof.
  intros Hp. unfold query.
  rewrite (bind_run _ _ _ _ _ (deref_run heap p w obj Hp)).
  reflexivity.
Qed.

(** The object allocated last is found at the old length of the heap, and
    updating it there replaces exactly that object. *)
Lemma lookup_snoc {A : Type} (h : list A) (x : A) :
  (h ++ [x]) !! length h = Some x.
Proof. induction h as [|y h IH]; [reflexivity | exact IH]. Qed.

Lemma insert_snoc {A : Type} (h : list A) (x y : A) :
  <[length h := y]> (h ++ [x]) = h ++ [y].
Proof.
  induction h as [|z h IH]; [reflexivity |].
  simpl. now rewrite IH.
Qed.

(** [std::copy] through a back inserter appends the input to the output. *)
Lemma std_copy_back_inserter_app {A : Type} (input out : list A) :
  std_copy_back_inserter input out = out ++ input.
Proof.
  revert out. induction input as [|x rest IH]; intros out; simpl.
  - now rewrite app_nil_r.
  - rewrite IH, <- app_assoc. reflexivity.
Qed.

(** The history functions read a log one call at a time. *)
Lemma registered_observer_snoc (cs : list Call) (c : Call) (t : loc) :
  registered_observer (cs ++ [c]) t =
  registered_step t (registered_observer cs t) c.
Proof. unfold registered_observer. now rewrite fold_left_app. Qed.

Lemma creation_media_type_snoc (cs : list Call) (c : Call) (t : loc) :
  creation_media_type (cs ++ [c]) t =
  creation_step t (creation_media_type cs t) c.
Proof. unfold creation_media_type. now rewrite fold_left_app. Qed.

Lemma transformers_created_app (cs1 cs2 : list Call) :
  transformers_created (cs1 ++ cs2) =
  (transformers_created cs1 + transformers_created cs2)%nat.
Proof.
  unfold transformers_created. now rewrite List.filter_app, length_app.
Qed.

(** What a constructor does in a world where the endpoint has a track: the
    object it builds and the world it leaves. *)
Lemma FrameCryptor_ctor_run (w : World) (rtc_runtime : webrtc.RtcRuntime)
    (participant_id : string) (algorithm : webrtc.Algorithm)
    (key_provider : loc) (endpoint : Endpoint)
    (track : webrtc.MediaStreamTrackInterface) :
  endpoint_track w endpoint = Some track ->
  let t := length (transformers w) in
  let thread := webrtc.signaling_thread rtc_runtime in
  let mediaType := mediaType_of_kind (webrtc.kind track) in
  FrameCryptor_ctor rtc_runtime participant_id algorithm key_provider
    endpoint w =
  Some ({| rtc_runtime_ := rtc_runtime;
           participant_id_ := participant_id;
           key_provider_ := key_provider;
           sender_ := match endpoint with
                      | Sender s => Some s
                      | Receiver _ => None
                      end;
           receiver_ := match endpoint with
                        | Sender _ => None
                        | Receiver r => Some r
                        end;
           e2ee_transformer_ := t;
           observer_ := None |},
        with_calls
          (fun cs =>
             cs ++ [Call_new_FrameCryptorTransformer
                      t thread participant_id mediaType algorithm
                      key_provider;
                    Call_install endpoint t;
                    Call_SetEnabled t false])
          (with_transformers
             (fun h =>
                h ++ [webrtc.SetEnabled false
                        (webrtc.new_FrameCryptorTransformer
                           thread participant_id mediaType algorithm
                           key_provider)])
             (install endpoint t w))).
Proof.
  intros Htrack t thread mediaType.
  destruct endpoint as [s | r]; simpl in Htrack |- *.
  - destruct (senders w !! s) as [obj|] eqn:Hs; [|discriminate].
    unfold FrameCryptor_ctor_sender.
    rewrite (bind_run _ _ _ _ _ (deref_run senders s w obj Hs)).
    unfold non_null at 1. unfold bind at 1. rewrite Htrack.
    unfold new_transformer, alloc, log, modify, invoke, deref, bind, ret.
    simpl. rewrite Hs. simpl. rewrite lookup_snoc. simpl.
    unfold with_calls, with_transformers, with_senders. simpl.
    rewrite insert_snoc, <- !app_assoc. reflexivity.
  - destruct (receivers w !! r) as [obj|] eqn:Hr; [|discriminate].
    unfold FrameCryptor_ctor_receiver.
    rewrite (bind_run _ _ _ _ _ (deref_run receivers r w obj Hr)).
    unfold non_null at 1. unfold bind at 1. rewrite Htrack.
    unfold new_transformer, alloc, log, modify, invoke, deref, bind, ret.
    simpl. rewrite Hr. simpl. rewrite lookup_snoc. simpl.
    unfold with_calls, with_transformers, with_receivers. simpl.
    rewrite insert_snoc, <- !app_assoc. reflexivity.
Qed.

End Running.

(* ------------------------------------------------------------------ *)
(** ** Option translation *)
(* ------------------------------------------------------------------ *)

(** C1.  The translation is not the same-name translation: it agrees with it
    on [AesGcm] and [AesCbc], but sends [Sm4Gcm] and [Sm4Cbc] to [kAesGcm],
    where the same-name translation (and the two returns left in comments in
    the source) give [kSm4Gcm] and [kSm4Cbc]. *)
Theorem AlgorithmToFrameCryptorAlgorithm_not_the_same_name :
  Some (AlgorithmToFrameCryptorAlgorithm AesGcm) =
    algorithm_of_the_same_name AesGcm /\
  Some (AlgorithmToFrameCryptorAlgorithm AesCbc) =
    algorithm_of_the_same_name AesCbc /\
  AlgorithmToFrameCryptorAlgorithm Sm4Gcm = webrtc.kAesGcm /\
  algorithm_of_the_same_name Sm4Gcm = Some webrtc.kSm4Gcm /\
  AlgorithmToFrameCryptorAlgorithm Sm4Gcm <> webrtc.kSm4Gcm /\
  AlgorithmToFrameCryptorAlgorithm Sm4Cbc = webrtc.kAesGcm /\
  algorithm_of_the_same_name Sm4Cbc = Some webrtc.kSm4Cbc /\
  AlgorithmToFrameCryptorAlgorithm Sm4Cbc <> webrtc.kSm4Cbc.
Proof. repeat split; discriminate. Qed.

(** C2.  Every algorithm other than [AesCbc], named or not, is translated to
    [kAesGcm]; so every algorithm other than [AesGcm] and [AesCbc] is
    translated like another one, [AesGcm], and the translation is not
    injective. *)
Theorem AlgorithmToFrameCryptorAlgorithm_falls_back_to_kAesGcm
    (algorithm : Algorithm) :
  algorithm <> AesCbc ->
  AlgorithmToFrameCryptorAlgorithm algorithm = webrtc.kAesGcm /\
  (algorithm <> AesGcm ->
   exists other : Algorithm,
     other <> algorithm /\
     AlgorithmToFrameCryptorAlgorithm other =
     AlgorithmToFrameCryptorAlgorithm algorithm) /\
  ~ (forall a b : Algorithm,
       AlgorithmToFrameCryptorAlgorithm a =
       AlgorithmToFrameCryptorAlgorithm b -> a = b).
Proof.
  intros Hcbc.
  assert (Hgcm : AlgorithmToFrameCryptorAlgorithm algorithm = webrtc.kAesGcm)
    by (destruct algorithm; [reflexivity | contradiction | reflexivity ..]).
  split; [exact Hgcm | split].
  - intros Hne. exists AesGcm. split; [congruence | now rewrite Hgcm].
  - intros Hinj. discriminate (Hinj Sm4Gcm AesGcm eq_refl).
Qed.

Lemma AlgorithmToFrameCryptorAlgorithm_falls_back_to_kAesGcm_witness :
  (Sm4Gcm <> AesCbc /\ Sm4Cbc <> AesCbc /\ Algorithm_unnamed 9 <> AesCbc) /\
  AlgorithmToFrameCryptorAlgorithm Sm4Gcm = webrtc.kAesGcm /\
  AlgorithmToFrameCryptorAlgorithm Sm4Cbc = webrtc.kAesGcm /\
  AlgorithmToFrameCryptorAlgorithm (Algorithm_unnamed 9) = webrtc.kAesGcm.
Proof.
  split; [repeat split; discriminate |].
  split; [| split].
  - apply (AlgorithmToFrameCryptorAlgorithm_falls_back_to_kAesGcm Sm4Gcm).
    discriminate.
  - apply (AlgorithmToFrameCryptorAlgorithm_falls_back_to_kAesGcm Sm4Cbc).
    discriminate.
  - apply (AlgorithmToFrameCryptorAlgorithm_falls_back_to_kAesGcm
             (Algorithm_unnamed 9)).
    discriminate.
Defined.

Section Translation.

Context {E : webrtc.Engine}.

(** C6.  The key provider is built from options that carry the caller's
    [shared_key], [ratchet_window_size] and [failure_tolerance] and a copy of
    the caller's [ratchet_salt] with the same bytes in the same order: the
    constructor, in any world and for any options, allocates one engine key
    provider made from exactly those options, logs that one call, and keeps
    the new pointer in [impl_]. *)
Theorem KeyProvider_ctor_translates_options (options : KeyProviderOptions)
    (w : World) :
  exists rtc_options : webrtc.KeyProviderOptions,
    webrtc.shared_key rtc_options = shared_key options /\
    webrtc.ratchet_salt rtc_options = ratchet_salt options /\
    webrtc.ratchet_window_size rtc_options = ratchet_window_size options /\
    webrtc.failure_tolerance rtc_options = failure_tolerance options /\
    KeyProvider_ctor options w =
    Some ({| impl_ := length (key_providers w) |},
          with_calls
            (fun cs =>
               cs ++ [Call_new_DefaultKeyProviderImpl
                        (length (key_providers w)) rtc_options])
            (with_key_providers
               (fun h => h ++ [webrtc.new_DefaultKeyProviderImpl rtc_options])
               w)).
Proof.
  refine (ex_intro _ _ (conj _ (conj _ (conj _ (conj _ eq_refl))))).
  - reflexivity.
  - simpl. now rewrite std_copy_back_inserter_app.
  - reflexivity.
  - reflexivity.
Qed.

(** C5.  A state change reported to the native observer at [this] reaches
    the Rust observer it wraps as one call, with the same participant id and
    with the state cast to the boundary enum at the same integer value;
    nothing else in the world changes. *)
Theorem OnFrameCryptionStateChanged_forwards (w : World) (this : loc)
    (self : NativeFrameCryptorObserver.t) (participant_id : string)
    (state : webrtc.FrameCryptionState) :
  observers w !! this = Some self ->
  repr (static_cast_FrameCryptionState state) = webrtc.underlying state /\
  OnFrameCryptionStateChanged this participant_id state w =
  Some (tt,
        with_calls
          (fun cs =>
             cs ++ [Call_on_frame_cryption_state_change
                      (NativeFrameCryptorObserver.observer_ self)
                      participant_id
                      {| repr := webrtc.underlying state |}])
          w).
Proof.
  intros Hself. split; [reflexivity |].
  unfold OnFrameCryptionStateChanged.
  rewrite (bind_run _ _ _ _ _ (deref_run observers this w self Hself)).
  reflexivity.
Qed.

End Translation.

Lemma OnFrameCryptionStateChanged_forwards_witness :
  observers reference.world2 !! 0%nat =
    Some (NativeFrameCryptorObserver.mk 42%nat 0%nat) /\
  (repr (static_cast_FrameCryptionState {| webrtc.underlying := 4 |}) = 4 /\
   OnFrameCryptionStateChanged (E := reference.engine) 0%nat "alice"%string
     {| webrtc.underlying := 4 |} reference.world2 =
   Some (tt,
         with_calls
           (fun cs =>
              cs ++ [Call_on_frame_cryption_state_change
                       42%nat "alice"%string {| repr := 4 |}])
           reference.world2)).
Proof.
  split; [reflexivity |].
  apply (OnFrameCryptionStateChanged_forwards (E := reference.engine)
           reference.world2 0%nat
           (NativeFrameCryptorObserver.mk 42%nat 0%nat)).
  reflexivity.
Defined.

(* ------------------------------------------------------------------ *)
(** ** Construction *)
(* ------------------------------------------------------------------ *)

Section Construction.

Context {E : webrtc.Engine}.

(** Installing a transformer in an endpoint touches the heap of that kind of
    endpoint only. *)
Lemma install_frame (endpoint : Endpoint) (t : loc) (w : World) :
  key_providers (install endpoint t w) = key_providers w /\
  transformers (install endpoint t w) = transformers w /\
  observers (install endpoint t w) = observers w /\
  frame_cryptors (install endpoint t w) = frame_cryptors w /\
  calls (install endpoint t w) = calls w.
Proof.
  destruct endpoint as [s | r]; simpl.
  - destruct (senders w !! s); repeat split; reflexivity.
  - destruct (receivers w !! r); repeat split; reflexivity.
Qed.

(** What a factory function does in a world where the endpoint has a track:
    it runs the constructor on the translated arguments and places the
    object behind the last FrameCryptor of the heap. *)
Lemma new_frame_cryptor_run (w : World)
    (peer_factory : webrtc.PeerConnectionFactory) (participant_id : string)
    (algorithm : Algorithm) (key_provider : KeyProvider)
    (endpoint : Endpoint) (track : webrtc.MediaStreamTrackInterface) :
  endpoint_track w endpoint = Some track ->
  exists (fc : FrameCryptor) (w1 : World),
    FrameCryptor_ctor (webrtc.rtc_runtime peer_factory) participant_id
      (AlgorithmToFrameCryptorAlgorithm algorithm)
      (rtc_key_provider key_provider) endpoint w = Some (fc, w1) /\
    frame_cryptors w1 = frame_cryptors w /\
    new_frame_cryptor peer_factory participant_id algorithm key_provider
      endpoint w =
    Some (length (frame_cryptors w),
          with_frame_cryptors (fun h => h ++ [fc]) w1).
Proof.
  intros Htrack.
  pose proof (FrameCryptor_ctor_run w (webrtc.rtc_runtime peer_factory)
                participant_id (AlgorithmToFrameCryptorAlgorithm algorithm)
                (rtc_key_provider key_provider) endpoint track Htrack)
    as Hrun.
  cbv zeta in Hrun.
  eexists. eexists. split; [exact Hrun | split].
  - cbn. apply install_frame.
  - destruct endpoint as [s | r]; simpl in Hrun |- *.
    + unfold new_frame_cryptor_for_rtp_sender. cbn [rtc_sender].
      rewrite (bind_run _ _ _ _ _ Hrun). unfold alloc. cbn.
      destruct (senders w !! s); reflexivity.
    + unfold new_frame_cryptor_for_rtp_receiver. cbn [rtc_receiver].
      rewrite (bind_run _ _ _ _ _ Hrun). unfold alloc. cbn.
      destruct (receivers w !! r); reflexivity.
Qed.

(** C4.  In a world where the endpoint has a track, a constructor returns,
    and it has created exactly one transformer: the transformer heap has one
    more object, at an address that held none, built from the signaling
    thread of the runtime, the participant id, the media type of the track
    kind, the algorithm and the key provider (and then disabled); the log has
    one more creation.  The pointer kept in [e2ee_transformer_] is that
    address, and the same address is what the endpoint is given: a sender
    through [SetEncoderToPacketizerFrameTransformer], a receiver through
    [SetDepacketizerToDecoderFrameTransformer], the other kind of endpoint
    being left alone. *)
Theorem FrameCryptor_ctor_creates_and_installs_one_transformer
    (w : World) (rtc_runtime : webrtc.RtcRuntime) (participant_id : string)
    (algorithm : webrtc.Algorithm) (key_provider : loc)
    (endpoint : Endpoint) (track : webrtc.MediaStreamTrackInterface) :
  endpoint_track w endpoint = Some track ->
  exists (fc : FrameCryptor) (w' : World),
    FrameCryptor_ctor rtc_runtime participant_id algorithm key_provider
      endpoint w = Some (fc, w') /\
    let t := e2ee_transformer_ fc in
    let thread := webrtc.signaling_thread rtc_runtime in
    let mediaType := mediaType_of_kind (webrtc.kind track) in
    transformers w !! t = None /\
    transformers w' =
      transformers w ++
      [webrtc.SetEnabled false
         (webrtc.new_FrameCryptorTransformer
            thread participant_id mediaType algorithm key_provider)] /\
    transformers_created (calls w') = S (transformers_created (calls w)) /\
    calls w' =
      calls w ++
      [Call_new_FrameCryptorTransformer
         t thread participant_id mediaType algorithm key_provider;
       match endpoint with
       | Sender s => Call_SetEncoderToPacketizerFrameTransformer s t
       | Receiver r => Call_SetDepacketizerToDecoderFrameTransformer r t
       end;
       Call_SetEnabled t false] /\
    match endpoint with
    | Sender s =>
        exists obj,
          senders w !! s = Some obj /\
          senders w' =
            <[s := webrtc.SetEncoderToPacketizerFrameTransformer t obj]>
              (senders w) /\
          receivers w' = receivers w
    | Receiver r =>
        exists obj,
          receivers w !! r = Some obj /\
          receivers w' =
            <[r := webrtc.SetDepacketizerToDecoderFrameTransformer t obj]>
              (receivers w) /\
          senders w' = senders w
    end.
Proof.
  intros Htrack.
  pose proof (FrameCryptor_ctor_run w rtc_runtime participant_id algorithm
                key_provider endpoint track Htrack) as Hrun.
  cbv zeta in Hrun.
  eexists. eexists. split; [exact Hrun |].
  destruct (install_frame endpoint (length (transformers w)) w)
    as (_ & Htr & _ & _ & Hcalls).
  cbn -[transformers_created]. rewrite Htr, Hcalls.
  split; [apply lookup_ge_None; lia |].
  split; [reflexivity |].
  split; [rewrite transformers_created_app; destruct endpoint; cbn; lia |].
  split; [destruct endpoint; reflexivity |].
  destruct endpoint as [s | r]; simpl in Htrack |- *.
  - destruct (senders w !! s) as [obj|]; [|discriminate].
    exists obj. repeat split; reflexivity.
  - destruct (receivers w !! r) as [obj|]; [|discriminate].
    exists obj. repeat split; reflexivity.
Qed.

(** C10.  In a world where the endpoint has a track, the media type the
    transformer is created with depends on the kind of the track through
    one test only: [kAudioFrame] when the kind is the string "audio", and
    [kVideoFrame] for every other string. *)
Theorem FrameCryptor_ctor_media_type
    (w : World) (rtc_runtime : webrtc.RtcRuntime) (participant_id : string)
    (algorithm : webrtc.Algorithm) (key_provider : loc)
    (endpoint : Endpoint) (track : webrtc.MediaStreamTrackInterface) :
  endpoint_track w endpoint = Some track ->
  exists (fc : FrameCryptor) (w' : World),
    FrameCryptor_ctor rtc_runtime participant_id algorithm key_provider
      endpoint w = Some (fc, w') /\
    let t := e2ee_transformer_ fc in
    let thread := webrtc.signaling_thread rtc_runtime in
    (webrtc.kind track = "audio"%string ->
     creation_media_type (calls w') t = Some webrtc.kAudioFrame /\
     transformers w' !! t =
       Some (webrtc.SetEnabled false
               (webrtc.new_FrameCryptorTransformer
                  thread participant_id webrtc.kAudioFrame algorithm
                  key_provider))) /\
    (webrtc.kind track <> "audio"%string ->
     creation_media_type (calls w') t = Some webrtc.kVideoFrame /\
     transformers w' !! t =
       Some (webrtc.SetEnabled false
               (webrtc.new_FrameCryptorTransformer
                  thread participant_id webrtc.kVideoFrame algorithm
                  key_provider))).
Proof.
  intros Htrack.
  pose proof (FrameCryptor_ctor_run w rtc_runtime participant_id algorithm
                key_provider endpoint track Htrack) as Hrun.
  cbv zeta in Hrun.
  eexists. eexists. split; [exact Hrun |].
  destruct (install_frame endpoint (length (transformers w)) w)
    as (_ & Htr & _ & _ & Hcalls).
  cbn -[creation_media_type]. rewrite Htr, Hcalls.
  assert (Hcreated :
    forall c1 mt,
      creation_media_type
        (calls w ++
         [Call_new_FrameCryptorTransformer (length (transformers w))
            (webrtc.signaling_thread rtc_runtime) participant_id mt
            algorithm key_provider;
          c1; Call_SetEnabled (length (transformers w)) false])
        (length (transformers w)) =
      creation_step (length (transformers w)) (Some mt) c1).
  { intros c1 mt. unfold creation_media_type.
    rewrite fold_left_app. cbn. now rewrite Nat.eqb_refl. }
  assert (Hinstall :
    forall acc,
      creation_step (length (transformers w)) acc
        (Call_install endpoint (length (transformers w))) = acc)
    by (intros acc; destruct endpoint; reflexivity).
  unfold mediaType_of_kind.
  split; intros Hkind.
  - apply String.eqb_eq in Hkind. rewrite Hkind.
    rewrite Hcreated, Hinstall.
    split; [reflexivity | apply lookup_snoc].
  - apply String.eqb_neq in Hkind. rewrite Hkind.
    rewrite Hcreated, Hinstall.
    split; [reflexivity | apply lookup_snoc].
Qed.

End Construction.

(* ------------------------------------------------------------------ *)
(** ** The accessors *)
(* ------------------------------------------------------------------ *)

Section Accessors.

Context {E : webrtc.Engine}.

Lemma set_enabled_run (w : World) (this : loc) (fc : FrameCryptor)
    (t : webrtc.FrameCryptorTransformer) (b : bool) :
  frame_cryptors w !! this = Some fc ->
  transformers w !! e2ee_transformer_ fc = Some t ->
  set_enabled this b w =
  Some (tt,
        with_calls (fun cs => cs ++ [Call_SetEnabled (e2ee_transformer_ fc) b])
          (with_transformers
             (fun h => <[e2ee_transformer_ fc := webrtc.SetEnabled b t]> h)
             w)).
Proof.
  intros Hfc Ht. unfold set_enabled.
  rewrite (bind_run _ _ _ _ _ (deref_run frame_cryptors this w fc Hfc)).
  now apply invoke_run.
Qed.

Lemma enabled_run (w : World) (this : loc) (fc : FrameCryptor)
    (t : webrtc.FrameCryptorTransformer) :
  frame_cryptors w !! this = Some fc ->
  transformers w !! e2ee_transformer_ fc = Some t ->
  enabled this w =
  Some (webrtc.enabled t,
        with_calls (fun cs => cs ++ [Call_enabled (e2ee_transformer_ fc)]) w).
Proof.
  intros Hfc Ht. unfold enabled.
  rewrite (bind_run _ _ _ _ _ (deref_run frame_cryptors this w fc Hfc)).
  now apply query_run.
Qed.

Lemma set_key_index_run (w : World) (this : loc) (fc : FrameCryptor)
    (t : webrtc.FrameCryptorTransformer) (index : Z) :
  frame_cryptors w !! this = Some fc ->
  transformers w !! e2ee_transformer_ fc = Some t ->
  set_key_index this index w =
  Some (tt,
        with_calls
          (fun cs => cs ++ [Call_SetKeyIndex (e2ee_transformer_ fc) index])
          (with_transformers
             (fun h =>
                <[e2ee_transformer_ fc := webrtc.SetKeyIndex index t]> h)
             w)).
Proof.
  intros Hfc Ht. unfold set_key_index.
  rewrite (bind_run _ _ _ _ _ (deref_run frame_cryptors this w fc Hfc)).
  now apply invoke_run.
Qed.

Lemma key_index_run (w : World) (this : loc) (fc : FrameCryptor)
    (t : webrtc.FrameCryptorTransformer) :
  frame_cryptors w !! this = Some fc ->
  transformers w !! e2ee_transformer_ fc = Some t ->
  key_index this w =
  Some (webrtc.key_index t,
        with_calls (fun cs => cs ++ [Call_key_index (e2ee_transformer_ fc)])
          w).
Proof.
  intros Hfc Ht. unfold key_index.
  rewrite (bind_run _ _ _ _ _ (deref_run frame_cryptors this w fc Hfc)).
  now apply query_run.
Qed.

(** An object that has just been written through a valid pointer is what
    that pointer reads. *)
Lemma lookup_insert_valid {A : Type} (h : list A) (p : loc) (old new : A) :
  h !! p = Some old -> <[p := new]> h !! p = Some new.
Proof.
  intros Hold. apply list_lookup_insert_eq.
  now apply lookup_lt_Some with old.
Qed.

(** C7.  On a FrameCryptor whose transformer is [t], [enabled()] returns
    what the transformer's [enabled()] returns and changes nothing but the
    log; [set_enabled(b)] makes one [SetEnabled(b)] call on the transformer
    and changes nothing else; and, the transformer's flag being read back as
    it was written, [enabled()] after [set_enabled(b)] returns [b]. *)
Theorem enabled_forwards_to_the_transformer
    {L : webrtc.EngineLaws E} (w : World) (this : loc) (fc : FrameCryptor)
    (t : webrtc.FrameCryptorTransformer) (b : bool) :
  frame_cryptors w !! this = Some fc ->
  transformers w !! e2ee_transformer_ fc = Some t ->
  let p := e2ee_transformer_ fc in
  let w1 :=
    with_calls (fun cs => cs ++ [Call_SetEnabled p b])
      (with_transformers (fun h => <[p := webrtc.SetEnabled b t]> h) w) in
  enabled this w =
    Some (webrtc.enabled t, with_calls (fun cs => cs ++ [Call_enabled p]) w) /\
  set_enabled this b w = Some (tt, w1) /\
  enabled this w1 =
    Some (b, with_calls (fun cs => cs ++ [Call_enabled p]) w1) /\
  (set_enabled this b ;; enabled this) w =
    Some (b, with_calls (fun cs => cs ++ [Call_enabled p]) w1).
Proof.
  intros Hfc Ht p w1.
  assert (Hset : set_enabled this b w = Some (tt, w1))
    by now apply set_enabled_run.
  assert (Hget : enabled this w1 =
                 Some (b, with_calls (fun cs => cs ++ [Call_enabled p]) w1)).
  { rewrite (enabled_run w1 this fc (webrtc.SetEnabled b t)).
    - now rewrite webrtc.enabled_SetEnabled.
    - exact Hfc.
    - cbn. now apply lookup_insert_valid with t. }
  split; [now apply enabled_run |].
  split; [exact Hset |].
  split; [exact Hget |].
  now rewrite (bind_run _ _ _ _ _ Hset).
Qed.

(** C8.  On a FrameCryptor whose transformer is [t], [set_key_index(i)]
    makes one [SetKeyIndex(i)] call on the transformer, with the index it
    was given, and changes nothing else; [key_index()] returns what the
    transformer's [key_index()] returns and changes nothing but the log; so
    [key_index()] after [set_key_index(i)] returns the key index of the
    transformer as [SetKeyIndex(i)] has left it. *)
Theorem key_index_forwards_to_the_transformer
    (w : World) (this : loc) (fc : FrameCryptor)
    (t : webrtc.FrameCryptorTransformer) (i : Z) :
  frame_cryptors w !! this = Some fc ->
  transformers w !! e2ee_transformer_ fc = Some t ->
  let p := e2ee_transformer_ fc in
  let w1 :=
    with_calls (fun cs => cs ++ [Call_SetKeyIndex p i])
      (with_transformers (fun h => <[p := webrtc.SetKeyIndex i t]> h) w) in
  key_index this w =
    Some (webrtc.key_index t,
          with_calls (fun cs => cs ++ [Call_key_index p]) w) /\
  set_key_index this i w = Some (tt, w1) /\
  transformers w1 !! p = Some (webrtc.SetKeyIndex i t) /\
  (set_key_index this i ;; key_index this) w =
    Some (webrtc.key_index (webrtc.SetKeyIndex i t),
          with_calls (fun cs => cs ++ [Call_key_index p]) w1).
Proof.
  intros Hfc Ht p w1.
  assert (Hset : set_key_index this i w = Some (tt, w1))
    by now apply set_key_index_run.
  assert (Hp : transformers w1 !! p = Some (webrtc.SetKeyIndex i t))
    by (cbn; now apply lookup_insert_valid with t).
  split; [now apply key_index_run |].
  split; [exact Hset |].
  split; [exact Hp |].
  rewrite (bind_run _ _ _ _ _ Hset).
  now apply key_index_run.
Qed.

(** C3.  In a world where the endpoint has a track, a factory function
    returns a FrameCryptor whose transformer [t], the one in
    [e2ee_transformer_], is the transformer that construction has created
    (no transformer was at that address before) and wired into the
    endpoint: the calls of construction are the creation of [t], the call
    that installs [t] in the given sender or receiver, and last
    [SetEnabled(false)] on [t]; the endpoint is left as its install method
    leaves it when given [t].  So, the transformer's flag being read back
    as it was written, [enabled()] on that FrameCryptor, which asks [t],
    returns [false]. *)
Theorem fresh_FrameCryptor_is_disabled
    {L : webrtc.EngineLaws E} (w : World)
    (peer_factory : webrtc.PeerConnectionFactory) (participant_id : string)
    (algorithm : Algorithm) (key_provider : KeyProvider)
    (endpoint : Endpoint) (track : webrtc.MediaStreamTrackInterface) :
  endpoint_track w endpoint = Some track ->
  exists (this : loc) (fc : FrameCryptor) (w' : World),
    new_frame_cryptor peer_factory participant_id algorithm key_provider
      endpoint w = Some (this, w') /\
    frame_cryptors w' !! this = Some fc /\
    last (calls w') = Some (Call_SetEnabled (e2ee_transformer_ fc) false) /\
    enabled this w' =
      Some (false,
            with_calls
              (fun cs => cs ++ [Call_enabled (e2ee_transformer_ fc)]) w') /\
    let t := e2ee_transformer_ fc in
    let thread :=
      webrtc.signaling_thread (webrtc.rtc_runtime peer_factory) in
    let mediaType := mediaType_of_kind (webrtc.kind track) in
    transformers w !! t = None /\
    transformers w' !! t =
      Some (webrtc.SetEnabled false
              (webrtc.new_FrameCryptorTransformer
                 thread participant_id mediaType
                 (AlgorithmToFrameCryptorAlgorithm algorithm)
                 (rtc_key_provider key_provider))) /\
    calls w' =
      calls w ++
      [Call_new_FrameCryptorTransformer
         t thread participant_id mediaType
         (AlgorithmToFrameCryptorAlgorithm algorithm)
         (rtc_key_provider key_provider);
       match endpoint with
       | Sender s => Call_SetEncoderToPacketizerFrameTransformer s t
       | Receiver r => Call_SetDepacketizerToDecoderFrameTransformer r t
       end;
       Call_SetEnabled t false] /\
    match endpoint with
    | Sender s =>
        sender_ fc = Some s /\
        exists obj,
          senders w !! s = Some obj /\
          senders w' =
            <[s := webrtc.SetEncoderToPacketizerFrameTransformer t obj]>
              (senders w) /\
          receivers w' = receivers w
    | Receiver r =>
        receiver_ fc = Some r /\
        exists obj,
          receivers w !! r = Some obj /\
          receivers w' =
            <[r := webrtc.SetDepacketizerToDecoderFrameTransformer t obj]>
              (receivers w) /\
          senders w' = senders w
    end.
Proof.
  intros Htrack.
  destruct (new_frame_cryptor_run w peer_factory participant_id algorithm
              key_provider endpoint track Htrack)
    as (fc & w1 & Hctor & Hframe & Hnew).
  pose proof (FrameCryptor_ctor_run w (webrtc.rtc_runtime peer_factory)
                participant_id (AlgorithmToFrameCryptorAlgorithm algorithm)
                (rtc_key_provider key_provider) endpoint track Htrack)
    as Hrun.
  cbv zeta in Hrun. rewrite Hrun in Hctor.
  injection Hctor as Hfc Hw1.
  destruct (install_frame endpoint (length (transformers w)) w)
    as (_ & Htr & _ & _ & Hcalls).
  exists (length (frame_cryptors w)), fc.
  eexists. split; [exact Hnew |].
  assert (Hthis :
    frame_cryptors (with_frame_cryptors (fun h => h ++ [fc]) w1)
      !! length (frame_cryptors w) = Some fc).
  { cbn. rewrite Hframe. apply lookup_snoc. }
  assert (Hp : e2ee_transformer_ fc = length (transformers w))
    by now rewrite <- Hfc.
  assert (Ht :
    transformers (with_frame_cryptors (fun h => h ++ [fc]) w1)
      !! e2ee_transformer_ fc =
    Some (webrtc.SetEnabled false
            (webrtc.new_FrameCryptorTransformer
               (webrtc.signaling_thread (webrtc.rtc_runtime peer_factory))
               participant_id (mediaType_of_kind (webrtc.kind track))
               (AlgorithmToFrameCryptorAlgorithm algorithm)
               (rtc_key_provider key_provider)))).
  { rewrite <- Hw1. cbn. rewrite Hp, Htr. apply lookup_snoc. }
  split; [exact Hthis |].
  split.
  { rewrite <- Hw1. cbn. rewrite Hp, last_app_cons. reflexivity. }
  split.
  { rewrite (enabled_run _ _ fc _ Hthis Ht).
    now rewrite webrtc.enabled_SetEnabled. }
  cbv zeta.
  split; [rewrite Hp; apply lookup_ge_None; lia |].
  split; [exact Ht |].
  split.
  { rewrite <- Hw1. cbn. rewrite Hp, Hcalls.
    destruct endpoint; reflexivity. }
  rewrite <- Hw1, Hp, <- Hfc.
  destruct endpoint as [s | r]; cbn in Htrack |- *.
  - split; [reflexivity |].
    destruct (senders w !! s) as [obj|]; [| discriminate].
    exists obj. repeat split; reflexivity.
  - split; [reflexivity |].
    destruct (receivers w !! r) as [obj|]; [| discriminate].
    exists obj. repeat split; reflexivity.
Qed.

End Accessors.

(* ------------------------------------------------------------------ *)
(** ** The observer *)
(* ------------------------------------------------------------------ *)

Section Observer.

Context {E : webrtc.Engine}.

Lemma unregister_observer_run (w : World) (this : loc) (fc : FrameCryptor)
    (t : webrtc.FrameCryptorTransformer) :
  frame_cryptors w !! this = Some fc ->
  transformers w !! e2ee_transformer_ fc = Some t ->
  unregister_observer this w =
  Some (tt,
        with_calls
          (fun cs =>
             cs ++ [Call_UnRegisterFrameCryptorTransformerObserver
                      (e2ee_transformer_ fc)])
          (with_transformers
             (fun h =>
                <[e2ee_transformer_ fc :=
                    webrtc.UnRegisterFrameCryptorTransformerObserver t]> h)
             (with_frame_cryptors
                (fun h => <[this := set_observer_ None fc]> h) w))).
Proof.
  intros Hfc Ht. unfold unregister_observer.
  rewrite (bind_run _ _ _ _ _ (deref_run frame_cryptors this w fc Hfc)).
  unfold bind at 1. unfold modify at 1.
  now apply invoke_run.
Qed.

Lemma register_observer_run (w : World) (this : loc) (fc : FrameCryptor)
    (t : webrtc.FrameCryptorTransformer) (observer : RustBox) :
  frame_cryptors w !! this = Some fc ->
  transformers w !! e2ee_transformer_ fc = Some t ->
  let o := length (observers w) in
  register_observer this observer w =
  Some (tt,
        with_calls
          (fun cs =>
             cs ++ [Call_RegisterFrameCryptorTransformerObserver
                      (e2ee_transformer_ fc) o])
          (with_transformers
             (fun h =>
                <[e2ee_transformer_ fc :=
                    webrtc.RegisterFrameCryptorTransformerObserver o t]> h)
             (with_frame_cryptors
                (fun h => <[this := set_observer_ (Some o) fc]> h)
                (with_observers
                   (fun h =>
                      h ++ [NativeFrameCryptorObserver.mk observer this])
                   w)))).
Proof.
  intros Hfc Ht o. unfold register_observer.
  rewrite (bind_run _ _ _ _ _ (deref_run frame_cryptors this w fc Hfc)).
  unfold bind at 1. unfold alloc at 1.
  unfold bind at 1. unfold modify at 1.
  now apply invoke_run.
Qed.

(** The destructor unregisters when [observer_] is set and does nothing
    otherwise. *)
Lemma FrameCryptor_dtor_run (w : World) (this : loc) (fc : FrameCryptor) :
  frame_cryptors w !! this = Some fc ->
  FrameCryptor_dtor this w =
  match observer_ fc with
  | Some _ => unregister_observer this w
  | None => Some (tt, w)
  end.
Proof.
  intros Hfc. unfold FrameCryptor_dtor.
  rewrite (bind_run _ _ _ _ _ (deref_run frame_cryptors this w fc Hfc)).
  destruct (observer_ fc); reflexivity.
Qed.

(** The invariant after a step that leaves the FrameCryptor alone, calls its
    transformer, and neither registers nor unregisters. *)
Lemma observer_invariant_call (w : World) (this : loc) (fc : FrameCryptor)
    (t t' : webrtc.FrameCryptorTransformer) (c : Call) :
  frame_cryptors w !! this = Some fc ->
  transformers w !! e2ee_transformer_ fc = Some t ->
  (forall acc, registered_step (e2ee_transformer_ fc) acc c = acc) ->
  (is_Some (observer_ fc) <->
   is_Some (registered_observer (calls w) (e2ee_transformer_ fc))) ->
  observer_invariant
    (with_calls (fun cs => cs ++ [c])
       (with_transformers (fun h => <[e2ee_transformer_ fc := t']> h) w))
    this /\
  observer_invariant (with_calls (fun cs => cs ++ [c]) w) this.
Proof.
  intros Hfc Ht Hstep Hiff.
  split; exists fc; cbn -[registered_observer];
    rewrite registered_observer_snoc, Hstep.
  - split; [exact Hfc | split; [| exact Hiff]].
    exists t'. now apply lookup_insert_valid with t.
  - split; [exact Hfc | split; [| exact Hiff]].
    now exists t.
Qed.

(** The invariant after a step that writes [o] to [observer_] and leaves
    [o] registered on the transformer. *)
Lemma observer_invariant_set (w' : World) (this : loc) (fc : FrameCryptor)
    (o : option loc) :
  frame_cryptors w' !! this = Some (set_observer_ o fc) ->
  is_Some (transformers w' !! e2ee_transformer_ fc) ->
  registered_observer (calls w') (e2ee_transformer_ fc) = o ->
  observer_invariant w' this.
Proof.
  intros Hfc Ht Hreg. exists (set_observer_ o fc).
  split; [exact Hfc |]. cbn. split; [exact Ht |]. now rewrite Hreg.
Qed.

Lemma register_observer_establishes (w : World) (this : loc)
    (observer : RustBox) :
  observer_invariant w this ->
  exists (w' : World) (fc' : FrameCryptor),
    register_observer this observer w = Some (tt, w') /\
    frame_cryptors w' !! this = Some fc' /\
    observer_ fc' = Some (length (observers w)) /\
    observers w' !! length (observers w) =
      Some (NativeFrameCryptorObserver.mk observer this) /\
    registered_observer (calls w') (e2ee_transformer_ fc') =
      Some (length (observers w)) /\
    observer_invariant w' this.
Proof.
  intros (fc & Hfc & [t Ht] & Hiff).
  pose proof (register_observer_run w this fc t observer Hfc Ht) as Hrun.
  cbv zeta in Hrun.
  eexists. eexists. split; [exact Hrun |].
  assert (Hfc' : forall o,
            <[this := set_observer_ o fc]> (frame_cryptors w) !! this =
            Some (set_observer_ o fc))
    by (intros o; now apply lookup_insert_valid with fc).
  assert (Hreg :
    registered_observer
      (calls w ++ [Call_RegisterFrameCryptorTransformerObserver
                     (e2ee_transformer_ fc) (length (observers w))])
      (e2ee_transformer_ fc) = Some (length (observers w))).
  { rewrite registered_observer_snoc. cbn. now rewrite Nat.eqb_refl. }
  split; [apply (Hfc' (Some (length (observers w)))) |].
  split; [reflexivity |].
  split; [cbn; apply lookup_snoc |].
  split; [exact Hreg |].
  apply observer_invariant_set with fc (Some (length (observers w))).
  - apply Hfc'.
  - cbn. eexists. now apply lookup_insert_valid with t.
  - exact Hreg.
Qed.

Lemma unregister_observer_establishes (w : World) (this : loc) :
  observer_invariant w this ->
  exists (w' : World) (fc' : FrameCryptor),
    unregister_observer this w = Some (tt, w') /\
    frame_cryptors w' !! this = Some fc' /\
    observer_ fc' = None /\
    registered_observer (calls w') (e2ee_transformer_ fc') = None /\
    observer_invariant w' this.
Proof.
  intros (fc & Hfc & [t Ht] & Hiff).
  pose proof (unregister_observer_run w this fc t Hfc Ht) as Hrun.
  eexists. eexists. split; [exact Hrun |].
  assert (Hfc' :
            <[this := set_observer_ None fc]> (frame_cryptors w) !! this =
            Some (set_observer_ None fc))
    by now apply lookup_insert_valid with fc.
  assert (Hreg :
    registered_observer
      (calls w ++ [Call_UnRegisterFrameCryptorTransformerObserver
                     (e2ee_transformer_ fc)])
      (e2ee_transformer_ fc) = None).
  { rewrite registered_observer_snoc. cbn. now rewrite Nat.eqb_refl. }
  split; [exact Hfc' |].
  split; [reflexivity |].
  split; [exact Hreg |].
  apply observer_invariant_set with fc None.
  - exact Hfc'.
  - cbn. eexists. now apply lookup_insert_valid with t.
  - exact Hreg.
Qed.

Lemma FrameCryptor_dtor_establishes (w : World) (this : loc)
    (fc : FrameCryptor) :
  observer_invariant w this ->
  frame_cryptors w !! this = Some fc ->
  exists (w' : World) (fc' : FrameCryptor),
    FrameCryptor_dtor this w = Some (tt, w') /\
    frame_cryptors w' !! this = Some fc' /\
    observer_ fc' = None /\
    registered_observer (calls w') (e2ee_transformer_ fc') = None /\
    observer_invariant w' this /\
    (is_Some (registered_observer (calls w) (e2ee_transformer_ fc)) ->
     unregister_observer this w = Some (tt, w')) /\
    (registered_observer (calls w) (e2ee_transformer_ fc) = None -> w' = w).
Proof.
  intros Hinv Hfc.
  pose proof Hinv as (fc0 & Hfc0 & Ht & Hiff).
  assert (fc0 = fc) as -> by congruence.
  rewrite (FrameCryptor_dtor_run w this fc Hfc).
  destruct (observer_ fc) as [o|] eqn:Hobs.
  - destruct (unregister_observer_establishes w this Hinv)
      as (w' & fc' & Hrun & Hfc' & Hnone & Hreg & Hinv').
    exists w', fc'. repeat (split; [assumption |]).
    split; [intros _; exact Hrun |].
    intros Hnot. destruct Hiff as [Hiff _].
    destruct (Hiff (ex_intro _ o eq_refl)) as [x Hx]. congruence.
  - assert (Hnot :
      registered_observer (calls w) (e2ee_transformer_ fc) = None).
    { destruct (registered_observer (calls w) (e2ee_transformer_ fc))
        as [x|] eqn:Hx; [| reflexivity].
      destruct Hiff as [_ Hiff].
      destruct (Hiff (ex_intro _ x eq_refl)) as [y Hy]. discriminate. }
    exists w, fc.
    split; [reflexivity |].
    split; [exact Hfc |].
    split; [exact Hobs |].
    split; [exact Hnot |].
    split; [exact Hinv |].
    split; [| reflexivity].
    intros [x Hx]. congruence.
Qed.

(** The invariant is kept by every method. *)
Lemma call_method_preserves (w : World) (this : loc) (m : Method) :
  observer_invariant w this ->
  exists w' : World,
    call_method this m w = Some (tt, w') /\ observer_invariant w' this.
Proof.
  intros Hinv.
  pose proof Hinv as (fc & Hfc & [t Ht] & Hiff).
  destruct m as [observer | | b | | index | |]; cbn [call_method].
  - destruct (register_observer_establishes w this observer Hinv)
      as (w' & _ & Hrun & _ & _ & _ & _ & Hinv').
    now exists w'.
  - destruct (unregister_observer_establishes w this Hinv)
      as (w' & _ & Hrun & _ & _ & _ & Hinv').
    now exists w'.
  - eexists. split; [exact (set_enabled_run w this fc t b Hfc Ht) |].
    now apply (observer_invariant_call w this fc t).
  - eexists. split.
    + rewrite (bind_run _ _ _ _ _ (enabled_run w this fc t Hfc Ht)).
      reflexivity.
    + now apply (observer_invariant_call w this fc t t).
  - eexists. split; [exact (set_key_index_run w this fc t index Hfc Ht) |].
    now apply (observer_invariant_call w this fc t).
  - eexists. split.
    + rewrite (bind_run _ _ _ _ _ (key_index_run w this fc t Hfc Ht)).
      reflexivity.
    + now apply (observer_invariant_call w this fc t t).
  - destruct (FrameCryptor_dtor_establishes w this fc Hinv Hfc)
      as (w' & _ & Hrun & _ & _ & _ & Hinv' & _).
    now exists w'.
Qed.

(** A FrameCryptor that has just been made satisfies the invariant, with no
    observer on either side. *)
Lemma new_frame_cryptor_establishes (w : World)
    (peer_factory : webrtc.PeerConnectionFactory) (participant_id : string)
    (algorithm : Algorithm) (key_provider : KeyProvider)
    (endpoint : Endpoint) (track : webrtc.MediaStreamTrackInterface) :
  endpoint_track w endpoint = Some track ->
  exists (this : loc) (fc : FrameCryptor) (w' : World),
    new_frame_cryptor peer_factory participant_id algorithm key_provider
      endpoint w = Some (this, w') /\
    frame_cryptors w' !! this = Some fc /\
    observer_ fc = None /\
    registered_observer (calls w') (e2ee_transformer_ fc) = None /\
    observer_invariant w' this.
Proof.
  intros Htrack.
  destruct (new_frame_cryptor_run w peer_factory participant_id algorithm
              key_provider endpoint track Htrack)
    as (fc & w1 & Hctor & Hframe & Hnew).
  pose proof (FrameCryptor_ctor_run w (webrtc.rtc_runtime peer_factory)
                participant_id (AlgorithmToFrameCryptorAlgorithm algorithm)
                (rtc_key_provider key_provider) endpoint track Htrack)
    as Hrun.
  cbv zeta in Hrun. rewrite Hrun in Hctor.
  injection Hctor as Hfc Hw1.
  destruct (install_frame endpoint (length (transformers w)) w)
    as (_ & Htr & _ & _ & Hcalls).
  assert (Hp : e2ee_transformer_ fc = length (transformers w))
    by now rewrite <- Hfc.
  assert (Hobs : observer_ fc = None) by now rewrite <- Hfc.
  assert (Hthis :
    frame_cryptors (with_frame_cryptors (fun h => h ++ [fc]) w1)
      !! length (frame_cryptors w) = Some fc).
  { cbn. rewrite Hframe. apply lookup_snoc. }
  assert (Hreg :
    registered_observer
      (calls (with_frame_cryptors (fun h => h ++ [fc]) w1))
      (e2ee_transformer_ fc) = None).
  { rewrite <- Hw1, Hp. cbn -[registered_observer].
    unfold registered_observer. rewrite fold_left_app. cbn.
    rewrite Nat.eqb_refl. destruct endpoint; reflexivity. }
  exists (length (frame_cryptors w)), fc.
  eexists. split; [exact Hnew |].
  split; [exact Hthis |].
  split; [exact Hobs |].
  split; [exact Hreg |].
  exists fc. split; [exact Hthis |]. split.
  - rewrite <- Hw1, Hp. cbn. rewrite Htr. eexists. apply lookup_snoc.
  - rewrite Hreg, Hobs. reflexivity.
Qed.

(** C9.  The invariant that [observer_] is non-null exactly when an observer
    is registered on the transformer
    - holds of a FrameCryptor that has just been made, which has no
      observer;
    - is kept by every method, each of which returns;
    - holds after [register_observer], which allocates a native observer
      around the Rust box, stores it in [observer_] and registers that same
      observer;
    - holds after [unregister_observer], which clears [observer_] and
      unregisters;
    - holds after the destructor, which leaves no observer on either side:
      it runs [unregister_observer] when an observer is registered, and
      does nothing when none is. *)
Theorem observer_invariant_established_and_preserved :
  (forall (w : World) (peer_factory : webrtc.PeerConnectionFactory)
          (participant_id : string) (algorithm : Algorithm)
          (key_provider : KeyProvider) (endpoint : Endpoint)
          (track : webrtc.MediaStreamTrackInterface),
     endpoint_track w endpoint = Some track ->
     exists (this : loc) (fc : FrameCryptor) (w' : World),
       new_frame_cryptor peer_factory participant_id algorithm key_provider
         endpoint w = Some (this, w') /\
       frame_cryptors w' !! this = Some fc /\
       observer_ fc = None /\
       registered_observer (calls w') (e2ee_transformer_ fc) = None /\
       observer_invariant w' this) /\
  (forall (w : World) (this : loc) (m : Method),
     observer_invariant w this ->
     exists w' : World,
       call_method this m w = Some (tt, w') /\ observer_invariant w' this) /\
  (forall (w : World) (this : loc) (observer : RustBox),
     observer_invariant w this ->
     exists (w' : World) (fc' : FrameCryptor),
       register_observer this observer w = Some (tt, w') /\
       frame_cryptors w' !! this = Some fc' /\
       observer_ fc' = Some (length (observers w)) /\
       observers w' !! length (observers w) =
         Some (NativeFrameCryptorObserver.mk observer this) /\
       registered_observer (calls w') (e2ee_transformer_ fc') =
         Some (length (observers w)) /\
       observer_invariant w' this) /\
  (forall (w : World) (this : loc),
     observer_invariant w this ->
     exists (w' : World) (fc' : FrameCryptor),
       unregister_observer this w = Some (tt, w') /\
       frame_cryptors w' !! this = Some fc' /\
       observer_ fc' = None /\
       registered_observer (calls w') (e2ee_transformer_ fc') = None /\
       observer_invariant w' this) /\
  (forall (w : World) (this : loc) (fc : FrameCryptor),
     observer_invariant w this ->
     frame_cryptors w !! this = Some fc ->
     exists (w' : World) (fc' : FrameCryptor),
       FrameCryptor_dtor this w = Some (tt, w') /\
       frame_cryptors w' !! this = Some fc' /\
       observer_ fc' = None /\
       registered_observer (calls w') (e2ee_transformer_ fc') = None /\
       observer_invariant w' this /\
       (is_Some (registered_observer (calls w) (e2ee_transformer_ fc)) ->
        unregister_observer this w = Some (tt, w')) /\
       (registered_observer (calls w) (e2ee_transformer_ fc) = None ->
        w' = w)).
Proof.
  split; [exact new_frame_cryptor_establishes |].
  split; [exact call_method_preserves |].
  split; [exact register_observer_establishes |].
  split; [exact unregister_observer_establishes |].
  exact FrameCryptor_dtor_establishes.
Qed.

End Observer.

(* ------------------------------------------------------------------ *)
(** ** The theorems at work on the small engine *)
(* ------------------------------------------------------------------ *)

(** The copy of a salt, front to back. *)
Example std_copy_back_inserter_salt :
  std_copy_back_inserter [x01; x02; x03]%byte [] = [x01; x02; x03]%byte.
Proof. reflexivity. Qed.

(** A sender without a track: the constructor has no outcome. *)
Example FrameCryptor_ctor_null_track :
  FrameCryptor_ctor (E := reference.engine) 7%nat "bob"%string
    webrtc.kAesCbc 3%nat (Sender 1%nat) reference.world0 = None.
Proof. reflexivity. Qed.

(** On the small engine, the observer the transformer holds is the one the
    call log says is registered. *)
Example registered_observer_agrees :
  reference.observer_ <$> transformers reference.world2 !! 0%nat =
  Some (registered_observer (calls reference.world2) 0%nat).
Proof. reflexivity. Qed.

Example registered_observer_after_dtor :
  match FrameCryptor_dtor (E := reference.engine) 0%nat reference.world2 with
  | Some (_, w) =>
      (reference.observer_ <$> transformers w !! 0%nat,
       registered_observer (calls w) 0%nat,
       observer_ (E := reference.engine) <$> frame_cryptors w !! 0%nat)
  | None => (None, Some 0%nat, None)
  end = (Some None, None, Some None).
Proof. reflexivity. Qed.

Lemma FrameCryptor_ctor_creates_and_installs_one_transformer_witness :
  endpoint_track (E := reference.engine) reference.world0 (Sender 0%nat) =
    Some "audio"%string /\
  exists (fc : FrameCryptor (E := reference.engine))
         (w' : World (E := reference.engine)),
    FrameCryptor_ctor (E := reference.engine) 7%nat "alice"%string
      webrtc.kAesCbc 3%nat (Sender 0%nat) reference.world0 = Some (fc, w') /\
    let t := e2ee_transformer_ fc in
    let thread := webrtc.signaling_thread (Engine := reference.engine) 7%nat in
    let mediaType :=
      mediaType_of_kind (webrtc.kind (Engine := reference.engine) "audio"%string)
    in
    transformers reference.world0 !! t = None /\
    transformers w' =
      transformers reference.world0 ++
      [webrtc.SetEnabled false
         (webrtc.new_FrameCryptorTransformer
            thread "alice"%string mediaType webrtc.kAesCbc 3%nat)] /\
    transformers_created (calls w') =
      S (transformers_created (calls reference.world0)) /\
    calls w' =
      calls reference.world0 ++
      [Call_new_FrameCryptorTransformer
         t thread "alice"%string mediaType webrtc.kAesCbc 3%nat;
       Call_SetEncoderToPacketizerFrameTransformer 0%nat t;
       Call_SetEnabled t false] /\
    exists obj,
      senders reference.world0 !! 0%nat = Some obj /\
      senders w' =
        <[0%nat := webrtc.SetEncoderToPacketizerFrameTransformer t obj]>
          (senders reference.world0) /\
      receivers w' = receivers reference.world0.
Proof.
  split; [reflexivity |].
  exact (FrameCryptor_ctor_creates_and_installs_one_transformer
           (E := reference.engine) reference.world0 7%nat "alice"%string
           webrtc.kAesCbc 3%nat (Sender 0%nat) "audio"%string eq_refl).
Defined.

Lemma FrameCryptor_ctor_media_type_witness :
  (endpoint_track (E := reference.engine) reference.world0 (Receiver 1%nat) =
     Some "data"%string /\
   webrtc.kind (Engine := reference.engine) "data"%string <> "audio"%string) /\
  exists (fc : FrameCryptor (E := reference.engine))
         (w' : World (E := reference.engine)),
    FrameCryptor_ctor (E := reference.engine) 7%nat "bob"%string
      webrtc.kAesGcm 3%nat (Receiver 1%nat) reference.world0 =
      Some (fc, w') /\
    creation_media_type (calls w') (e2ee_transformer_ fc) =
      Some webrtc.kVideoFrame /\
    transformers w' !! e2ee_transformer_ fc =
      Some (webrtc.SetEnabled false
              (webrtc.new_FrameCryptorTransformer (Engine := reference.engine)
                 7%nat "bob"%string webrtc.kVideoFrame webrtc.kAesGcm 3%nat)).
Proof.
  assert (Hkind :
    webrtc.kind (Engine := reference.engine) "data"%string <> "audio"%string)
    by discriminate.
  split; [split; [reflexivity | exact Hkind] |].
  destruct (FrameCryptor_ctor_media_type
              (E := reference.engine) reference.world0 7%nat "bob"%string
              webrtc.kAesGcm 3%nat (Receiver 1%nat) "data"%string eq_refl)
    as (fc & w' & Hrun & _ & Hvideo).
  exists fc, w'. split; [exact Hrun | exact (Hvideo Hkind)].
Defined.

Lemma fresh_FrameCryptor_is_disabled_witness :
  endpoint_track (E := reference.engine) reference.world0 (Receiver 0%nat) =
    Some "video"%string /\
  exists (this : loc) (fc : FrameCryptor (E := reference.engine))
         (w' : World (E := reference.engine)),
    new_frame_cryptor (E := reference.engine) 7%nat "bob"%string Sm4Cbc
      {| impl_ := 3%nat |} (Receiver 0%nat) reference.world0 =
      Some (this, w') /\
    frame_cryptors w' !! this = Some fc /\
    last (calls w') = Some (Call_SetEnabled (e2ee_transformer_ fc) false) /\
    enabled this w' =
      Some (false,
            with_calls
              (fun cs => cs ++ [Call_enabled (e2ee_transformer_ fc)]) w') /\
    let t := e2ee_transformer_ fc in
    let thread :=
      webrtc.signaling_thread (Engine := reference.engine)
        (webrtc.rtc_runtime (Engine := reference.engine) 7%nat) in
    let mediaType :=
      mediaType_of_kind (webrtc.kind (Engine := reference.engine)
                           "video"%string) in
    transformers reference.world0 !! t = None /\
    transformers w' !! t =
      Some (webrtc.SetEnabled false
              (webrtc.new_FrameCryptorTransformer
                 thread "bob"%string mediaType
                 (AlgorithmToFrameCryptorAlgorithm Sm4Cbc)
                 (rtc_key_provider {| impl_ := 3%nat |}))) /\
    calls w' =
      calls reference.world0 ++
      [Call_new_FrameCryptorTransformer
         t thread "bob"%string mediaType
         (AlgorithmToFrameCryptorAlgorithm Sm4Cbc)
         (rtc_key_provider {| impl_ := 3%nat |});
       Call_SetDepacketizerToDecoderFrameTransformer 0%nat t;
       Call_SetEnabled t false] /\
    receiver_ fc = Some 0%nat /\
    exists obj,
      receivers reference.world0 !! 0%nat = Some obj /\
      receivers w' =
        <[0%nat := webrtc.SetDepacketizerToDecoderFrameTransformer t obj]>
          (receivers reference.world0) /\
      senders w' = senders reference.world0.
Proof.
  split; [reflexivity |].
  exact (fresh_FrameCryptor_is_disabled
           (E := reference.engine) (L := reference.engine_laws)
           reference.world0 7%nat "bob"%string Sm4Cbc {| impl_ := 3%nat |}
           (Receiver 0%nat) "video"%string eq_refl).
Defined.

Lemma enabled_forwards_to_the_transformer_witness :
  (frame_cryptors reference.world1 !! 0%nat = Some reference.fc1 /\
   transformers reference.world1 !! e2ee_transformer_ reference.fc1 =
     Some reference.t1) /\
  let p := e2ee_transformer_ reference.fc1 in
  let w1 :=
    with_calls (fun cs => cs ++ [Call_SetEnabled p true])
      (with_transformers
         (fun h =>
            <[p := webrtc.SetEnabled (Engine := reference.engine)
                     true reference.t1]> h)
         reference.world1) in
  enabled 0%nat reference.world1 =
    Some (webrtc.enabled (Engine := reference.engine) reference.t1,
          with_calls (fun cs => cs ++ [Call_enabled p]) reference.world1) /\
  set_enabled 0%nat true reference.world1 = Some (tt, w1) /\
  enabled 0%nat w1 =
    Some (true, with_calls (fun cs => cs ++ [Call_enabled p]) w1) /\
  (set_enabled 0%nat true ;; enabled 0%nat) reference.world1 =
    Some (true, with_calls (fun cs => cs ++ [Call_enabled p]) w1).
Proof.
  split; [split; reflexivity |].
  exact (enabled_forwards_to_the_transformer
           (E := reference.engine) (L := reference.engine_laws)
           reference.world1 0%nat reference.fc1 reference.t1 true
           eq_refl eq_refl).
Defined.

Lemma key_index_forwards_to_the_transformer_witness :
  (frame_cryptors reference.world1 !! 0%nat = Some reference.fc1 /\
   transformers reference.world1 !! e2ee_transformer_ reference.fc1 =
     Some reference.t1) /\
  let p := e2ee_transformer_ reference.fc1 in
  let w1 :=
    with_calls (fun cs => cs ++ [Call_SetKeyIndex p 5])
      (with_transformers
         (fun h =>
            <[p := webrtc.SetKeyIndex (Engine := reference.engine)
                     5 reference.t1]> h)
         reference.world1) in
  key_index 0%nat reference.world1 =
    Some (webrtc.key_index (Engine := reference.engine) reference.t1,
          with_calls (fun cs => cs ++ [Call_key_index p]) reference.world1) /\
  set_key_index 0%nat 5 reference.world1 = Some (tt, w1) /\
  transformers w1 !! p =
    Some (webrtc.SetKeyIndex (Engine := reference.engine) 5 reference.t1) /\
  (set_key_index 0%nat 5 ;; key_index 0%nat) reference.world1 =
    Some (webrtc.key_index (Engine := reference.engine)
            (webrtc.SetKeyIndex (Engine := reference.engine)
               5 reference.t1),
          with_calls (fun cs => cs ++ [Call_key_index p]) w1).
Proof.
  split; [split; reflexivity |].
  exact (key_index_forwards_to_the_transformer
           (E := reference.engine)
           reference.world1 0%nat reference.fc1 reference.t1 5
           eq_refl eq_refl).
Defined.

Lemma observer_invariant_established_and_preserved_witness :
  (observer_invariant reference.world2 0%nat /\
   frame_cryptors reference.world2 !! 0%nat = Some reference.fc2) /\
  exists (w' : World (E := reference.engine))
         (fc' : FrameCryptor (E := reference.engine)),
    FrameCryptor_dtor 0%nat reference.world2 = Some (tt, w') /\
    unregister_observer 0%nat reference.world2 = Some (tt, w') /\
    frame_cryptors w' !! 0%nat = Some fc' /\
    observer_ fc' = None /\
    registered_observer (calls w') (e2ee_transformer_ fc') = None /\
    observer_invariant w' 0%nat.
Proof.
  assert (Hinv : observer_invariant reference.world2 0%nat).
  { exists reference.fc2. split; [reflexivity |].
    split; [eexists; reflexivity |].
    split; intros _; eexists; reflexivity. }
  split; [split; [exact Hinv | reflexivity] |].
  destruct (proj2 (proj2 (proj2 (proj2
              (observer_invariant_established_and_preserved
                 (E := reference.engine)))))
              reference.world2 0%nat reference.fc2 Hinv eq_refl)
    as (w' & fc' & Hrun & Hfc & Hobs & Hreg & Hinv' & Hunreg & _).
  exists w', fc'.
  split; [exact Hrun |].
  split; [apply Hunreg; eexists; reflexivity |].
  split; [exact Hfc |].
  split; [exact Hobs |].
  split; [exact Hreg | exact Hinv'].
Defined.

(* ------------------------------------------------------------------ *)
(** ** What a method call reaches *)
(* ------------------------------------------------------------------ *)

Section Frames.

Context {E : webrtc.Engine}.

Lemma set_observer_same (fc : FrameCryptor) :
  set_observer_ (observer_ fc) fc = fc.
Proof. destruct fc; reflexivity. Qed.

(** A method call on one transformer does not change which observer is
    registered on another. *)
Lemma registered_step_other (p q : loc) (c : Call) (acc : option loc) :
  on_transformer p c = true -> q <> p -> registered_step q acc c = acc.
Proof.
  intros Hon Hne.
  destruct c; cbn in Hon |- *; try discriminate; try reflexivity;
    apply Nat.eqb_eq in Hon; subst;
    now rewrite (proj2 (Nat.eqb_neq _ _) (not_eq_sym Hne)).
Qed.

Lemma registered_observer_other (p q : loc) (cs cs' : list Call) :
  Forall (fun c => on_transformer p c = true) cs' -> q <> p ->
  registered_observer (cs ++ cs') q = registered_observer cs q.
Proof.
  intros Hon Hne. unfold registered_observer. rewrite fold_left_app.
  generalize (fold_left (registered_step q) cs None) as acc.
  induction Hon as [|c cs' Hc _ IH]; intros acc; [reflexivity |].
  cbn. rewrite (registered_step_other p q c acc Hc Hne). apply IH.
Qed.

(** A method of an object that is not there has no outcome. *)
Lemma call_method_needs_object (w : World) (this : loc) (m : Method) :
  frame_cryptors w !! this = None -> call_method this m w = None.
Proof.
  intros Hnone.
  destruct m; cbn [call_method];
    unfold register_observer, unregister_observer, set_enabled, enabled,
      set_key_index, key_index, FrameCryptor_dtor, bind, deref;
    now rewrite Hnone.
Qed.

Ltac effect_part :=
  first [ reflexivity
        | cbn; lia
        | symmetry; apply app_nil_r
        | repeat constructor; cbn; apply Nat.eqb_refl ].

(** The whole effect of a method call on the FrameCryptor [fc] at [this],
    whose transformer is [t]: a value [o] for [observer_], a state [t'] for
    the transformer, the calls [cs] made on the transformer, and the
    native observers [os] allocated. *)
Lemma call_method_effect (w : World) (this : loc) (m : Method)
    (fc : FrameCryptor) (t : webrtc.FrameCryptorTransformer) :
  frame_cryptors w !! this = Some fc ->
  transformers w !! e2ee_transformer_ fc = Some t ->
  exists (w' : World) (o : option loc) (t' : webrtc.FrameCryptorTransformer)
         (cs : list Call) (os : list NativeFrameCryptorObserver.t),
    call_method this m w = Some (tt, w') /\
    frame_cryptors w' = <[this := set_observer_ o fc]> (frame_cryptors w) /\
    transformers w' = <[e2ee_transformer_ fc := t']> (transformers w) /\
    calls w' = calls w ++ cs /\
    Forall (fun c => on_transformer (e2ee_transformer_ fc) c = true) cs /\
    (length cs <= 1)%nat /\
    observers w' = observers w ++ os /\
    senders w' = senders w /\
    receivers w' = receivers w /\
    key_providers w' = key_providers w.
Proof.
  intros Hfc Ht.
  assert (Hsame_fc :
    frame_cryptors w =
    <[this := set_observer_ (observer_ fc) fc]> (frame_cryptors w))
    by (rewrite set_observer_same; symmetry; now apply list_insert_id).
  assert (Hsame_t :
    transformers w = <[e2ee_transformer_ fc := t]> (transformers w))
    by (symmetry; now apply list_insert_id).
  assert (Hunregister :
    exists (w' : World) (o : option loc)
           (t' : webrtc.FrameCryptorTransformer)
           (cs : list Call) (os : list NativeFrameCryptorObserver.t),
      unregister_observer this w = Some (tt, w') /\
      frame_cryptors w' = <[this := set_observer_ o fc]> (frame_cryptors w) /\
      transformers w' = <[e2ee_transformer_ fc := t']> (transformers w) /\
      calls w' = calls w ++ cs /\
      Forall (fun c => on_transformer (e2ee_transformer_ fc) c = true) cs /\
      (length cs <= 1)%nat /\
      observers w' = observers w ++ os /\
      senders w' = senders w /\
      receivers w' = receivers w /\
      key_providers w' = key_providers w).
  { eexists. exists None. eexists. eexists. exists [].
    split; [exact (unregister_observer_run w this fc t Hfc Ht) |].
    cbn.
    repeat (split; [effect_part |]).
    reflexivity. }
  destruct m as [observer | | b | | index | |]; cbn [call_method].
  - eexists. eexists. eexists. eexists. eexists.
    split; [exact (register_observer_run w this fc t observer Hfc Ht) |].
    cbn.
    repeat (split; [effect_part |]).
    reflexivity.
  - exact Hunregister.
  - eexists. exists (observer_ fc). eexists. eexists. exists [].
    split; [exact (set_enabled_run w this fc t b Hfc Ht) |].
    cbn.
    split; [exact Hsame_fc |].
    repeat (split; [effect_part |]).
    reflexivity.
  - eexists. exists (observer_ fc), t. eexists. exists [].
    split.
    { rewrite (bind_run _ _ _ _ _ (enabled_run w this fc t Hfc Ht)).
      reflexivity. }
    cbn.
    split; [exact Hsame_fc |].
    split; [exact Hsame_t |].
    repeat (split; [effect_part |]).
    reflexivity.
  - eexists. exists (observer_ fc). eexists. eexists. exists [].
    split; [exact (set_key_index_run w this fc t index Hfc Ht) |].
    cbn.
    split; [exact Hsame_fc |].
    repeat (split; [effect_part |]).
    reflexivity.
  - eexists. exists (observer_ fc), t. eexists. exists [].
    split.
    { rewrite (bind_run _ _ _ _ _ (key_index_run w this fc t Hfc Ht)).
      reflexivity. }
    cbn.
    split; [exact Hsame_fc |].
    split; [exact Hsame_t |].
    repeat (split; [effect_part |]).
    reflexivity.
  - rewrite (FrameCryptor_dtor_run w this fc Hfc).
    destruct (observer_ fc) as [o|] eqn:Hobs; [exact Hunregister |].
    exists w, None, t, [], [].
    split; [reflexivity |].
    split; [exact Hsame_fc |].
    split; [exact Hsame_t |].
    repeat (split; [effect_part |]).
    reflexivity.
Qed.

End Frames.

Section Isolation.

Context {E : webrtc.Engine}.

(** X1.  A method call on a FrameCryptor whose transformer exists returns,
    and it reaches that FrameCryptor and that transformer only: the fields
    of the FrameCryptor other than [observer_] keep their values, every
    other FrameCryptor and every other transformer is as before, native
    observers that exist are as before, and so are all senders, receivers
    and key providers. *)
Theorem call_method_frame (w : World) (this : loc) (m : Method)
    (fc : FrameCryptor) (t : webrtc.FrameCryptorTransformer) :
  frame_cryptors w !! this = Some fc ->
  transformers w !! e2ee_transformer_ fc = Some t ->
  exists w' : World,
    call_method this m w = Some (tt, w') /\
    (exists fc' : FrameCryptor,
       frame_cryptors w' !! this = Some fc' /\
       rtc_runtime_ fc' = rtc_runtime_ fc /\
       participant_id_ fc' = participant_id_ fc /\
       key_provider_ fc' = key_provider_ fc /\
       sender_ fc' = sender_ fc /\
       receiver_ fc' = receiver_ fc /\
       e2ee_transformer_ fc' = e2ee_transformer_ fc) /\
    (forall other : loc,
       other <> this ->
       frame_cryptors w' !! other = frame_cryptors w !! other) /\
    (forall q : loc,
       q <> e2ee_transformer_ fc ->
       transformers w' !! q = transformers w !! q) /\
    (forall (o : loc) (x : NativeFrameCryptorObserver.t),
       observers w !! o = Some x -> observers w' !! o = Some x) /\
    senders w' = senders w /\
    receivers w' = receivers w /\
    key_providers w' = key_providers w.
Proof.
  intros Hfc Ht.
  destruct (call_method_effect w this m fc t Hfc Ht)
    as (w' & o & t' & cs & os & Hrun & Hfcs & Hts & _ & _ & _ & Hos
        & Hs & Hr & Hk).
  exists w'. split; [exact Hrun |].
  split.
  { exists (set_observer_ o fc). rewrite Hfcs.
    split; [now apply lookup_insert_valid with fc |].
    repeat split; reflexivity. }
  split; [intros other Hne; rewrite Hfcs;
          now apply list_lookup_insert_ne |].
  split; [intros q Hne; rewrite Hts;
          now apply list_lookup_insert_ne |].
  split; [intros x y Hx; rewrite Hos; now apply lookup_app_l_Some |].
  now repeat split.
Qed.

(** X2.  In a well-formed world, a method call on one FrameCryptor does not
    change what [enabled()] and [key_index()] return on another one, nor
    the other one's [observer_]. *)
Theorem methods_do_not_interfere (w w' : World) (this other : loc)
    (m : Method) (fc fc' : FrameCryptor) :
  well_formed w ->
  this <> other ->
  frame_cryptors w !! this = Some fc ->
  frame_cryptors w !! other = Some fc' ->
  call_method this m w = Some (tt, w') ->
  frame_cryptors w' !! other = Some fc' /\
  is_Some (enabled other w) /\
  fst <$> enabled other w' = fst <$> enabled other w /\
  fst <$> key_index other w' = fst <$> key_index other w.
Proof.
  intros [Hvalid Hunshared] Hne Hfc Hfc' Hcall.
  destruct (Hvalid this fc Hfc) as [_ [t Ht]].
  destruct (Hvalid other fc' Hfc') as [_ [t' Ht']].
  destruct (call_method_effect w this m fc t Hfc Ht)
    as (w0 & o & t0 & cs & os & Hrun & Hfcs & Hts & _).
  assert (w0 = w') as -> by congruence.
  assert (Hother : frame_cryptors w' !! other = Some fc').
  { rewrite Hfcs, list_lookup_insert_ne; [exact Hfc' | exact Hne]. }
  assert (Hp : e2ee_transformer_ fc <> e2ee_transformer_ fc').
  { intros Heq. apply Hne. exact (Hunshared this other fc fc' Hfc Hfc' Heq). }
  assert (Ht0 : transformers w' !! e2ee_transformer_ fc' = Some t').
  { rewrite Hts, list_lookup_insert_ne; [exact Ht' | exact Hp]. }
  split; [exact Hother |].
  rewrite (enabled_run w other fc' t' Hfc' Ht').
  rewrite (enabled_run w' other fc' t' Hother Ht0).
  rewrite (key_index_run w other fc' t' Hfc' Ht').
  rewrite (key_index_run w' other fc' t' Hother Ht0).
  split; [eexists; reflexivity |].
  split; reflexivity.
Qed.

End Isolation.

Lemma reference_world3_well_formed :
  well_formed (E := reference.engine) reference.world3.
Proof.
  split.
  - intros [|[|this]] fc Hfc; cbn in Hfc; try discriminate;
      injection Hfc as <-.
    + split; [left; split; [eexists |]; reflexivity | eexists; reflexivity].
    + split; [right; split; [| eexists]; reflexivity | eexists; reflexivity].
  - intros [|[|this]] [|[|other]] fc fc' Hfc Hfc' Heq;
      cbn in Hfc, Hfc'; try discriminate; try reflexivity;
      injection Hfc as <-; injection Hfc' as <-; discriminate.
Qed.

Lemma call_method_frame_witness :
  (frame_cryptors reference.world3 !! 1%nat = Some reference.fc3 /\
   transformers reference.world3 !! e2ee_transformer_ reference.fc3 =
     Some reference.t3) /\
  exists w' : World (E := reference.engine),
    call_method 1%nat (Method_register_observer 43%nat) reference.world3 =
      Some (tt, w') /\
    frame_cryptors w' !! 0%nat = frame_cryptors reference.world3 !! 0%nat /\
    transformers w' !! 0%nat = transformers reference.world3 !! 0%nat /\
    senders w' = senders reference.world3 /\
    receivers w' = receivers reference.world3.
Proof.
  split; [split; reflexivity |].
  destruct (call_method_frame (E := reference.engine) reference.world3
              1%nat (Method_register_observer 43%nat)
              reference.fc3 reference.t3 eq_refl eq_refl)
    as (w' & Hrun & _ & Hfcs & Hts & _ & Hs & Hr & _).
  exists w'. split; [exact Hrun |].
  split; [apply Hfcs; discriminate |].
  split; [apply Hts; discriminate |].
  split; [exact Hs | exact Hr].
Defined.

Lemma methods_do_not_interfere_witness :
  (well_formed (E := reference.engine) reference.world3 /\
   1%nat <> 0%nat /\
   frame_cryptors reference.world3 !! 1%nat = Some reference.fc3 /\
   frame_cryptors reference.world3 !! 0%nat = Some reference.fc2 /\
   call_method 1%nat (Method_set_enabled true) reference.world3 =
     Some (tt,
           with_calls (fun cs => cs ++ [Call_SetEnabled 1%nat true])
             (with_transformers
                (fun h =>
                   <[1%nat := webrtc.SetEnabled (Engine := reference.engine)
                                true reference.t3]> h)
                reference.world3))) /\
  fst <$> enabled 0%nat
            (with_calls (fun cs => cs ++ [Call_SetEnabled 1%nat true])
               (with_transformers
                  (fun h =>
                     <[1%nat := webrtc.SetEnabled
                                  (Engine := reference.engine)
                                  true reference.t3]> h)
                  reference.world3)) =
  fst <$> enabled 0%nat reference.world3.
Proof.
  assert (Hne : 1%nat <> 0%nat) by discriminate.
  split.
  { split; [exact reference_world3_well_formed |].
    split; [exact Hne |]. repeat split; reflexivity. }
  exact (proj1 (proj2 (proj2
           (methods_do_not_interfere (E := reference.engine)
              reference.world3 _ 1%nat 0%nat (Method_set_enabled true)
              reference.fc3 reference.fc2
              reference_world3_well_formed Hne eq_refl eq_refl eq_refl)))).
Defined.

(* ------------------------------------------------------------------ *)
(** ** What a factory function reaches *)
(* ------------------------------------------------------------------ *)

Section Factories.

Context {E : webrtc.Engine}.

(** A constructor has no outcome when its endpoint is not there or has no
    track: [endpoint->track()->kind()] is evaluated without a test. *)
Lemma FrameCryptor_ctor_needs_track (w : World)
    (rtc_runtime : webrtc.RtcRuntime) (participant_id : string)
    (algorithm : webrtc.Algorithm) (key_provider : loc)
    (endpoint : Endpoint) :
  endpoint_track w endpoint = None ->
  FrameCryptor_ctor rtc_runtime participant_id algorithm key_provider
    endpoint w = None.
Proof.
  intros Hnone.
  destruct endpoint as [s | r]; cbn in Hnone |- *.
  - unfold FrameCryptor_ctor_sender, bind, deref, non_null.
    destruct (senders w !! s); [now rewrite Hnone | reflexivity].
  - unfold FrameCryptor_ctor_receiver, bind, deref, non_null.
    destruct (receivers w !! r); [now rewrite Hnone | reflexivity].
Qed.

Lemma new_frame_cryptor_needs_track (w : World)
    (peer_factory : webrtc.PeerConnectionFactory) (participant_id : string)
    (algorithm : Algorithm) (key_provider : KeyProvider)
    (endpoint : Endpoint) :
  endpoint_track w endpoint = None ->
  new_frame_cryptor peer_factory participant_id algorithm key_provider
    endpoint w = None.
Proof.
  intros Hnone.
  pose proof (FrameCryptor_ctor_needs_track w
                (webrtc.rtc_runtime peer_factory) participant_id
                (AlgorithmToFrameCryptorAlgorithm algorithm)
                (rtc_key_provider key_provider) endpoint Hnone) as Hctor.
  destruct endpoint as [s | r]; cbn in Hctor |- *.
  - unfold new_frame_cryptor_for_rtp_sender, bind. cbn [rtc_sender].
    now rewrite Hctor.
  - unfold new_frame_cryptor_for_rtp_receiver, bind. cbn [rtc_receiver].
    now rewrite Hctor.
Qed.

(** Installing a transformer in one endpoint leaves the others alone. *)
Lemma install_endpoints (endpoint : Endpoint) (t : loc) (w : World) :
  (forall s : loc,
     endpoint <> Sender s ->
     senders (install endpoint t w) !! s = senders w !! s) /\
  (forall r : loc,
     endpoint <> Receiver r ->
     receivers (install endpoint t w) !! r = receivers w !! r).
Proof.
  destruct endpoint as [s0 | r0]; cbn.
  - destruct (senders w !! s0); split; intros x Hne; try reflexivity.
    cbn. apply list_lookup_insert_ne. congruence.
  - destruct (receivers w !! r0); split; intros x Hne; try reflexivity.
    cbn. apply list_lookup_insert_ne. congruence.
Qed.

(** The whole effect of a factory function in a world where the endpoint
    has a track. *)
Lemma new_frame_cryptor_effect (w : World)
    (peer_factory : webrtc.PeerConnectionFactory) (participant_id : string)
    (algorithm : Algorithm) (key_provider : KeyProvider)
    (endpoint : Endpoint) (track : webrtc.MediaStreamTrackInterface) :
  endpoint_track w endpoint = Some track ->
  let t := length (transformers w) in
  let thread := webrtc.signaling_thread (webrtc.rtc_runtime peer_factory) in
  let mediaType := mediaType_of_kind (webrtc.kind track) in
  let fc :=
    {| rtc_runtime_ := webrtc.rtc_runtime peer_factory;
       participant_id_ := participant_id;
       key_provider_ := rtc_key_provider key_provider;
       sender_ := match endpoint with
                  | Sender s => Some s
                  | Receiver _ => None
                  end;
       receiver_ := match endpoint with
                    | Sender _ => None
                    | Receiver r => Some r
                    end;
       e2ee_transformer_ := t;
       observer_ := None |} in
  exists w' : World,
    new_frame_cryptor peer_factory participant_id algorithm key_provider
      endpoint w = Some (length (frame_cryptors w), w') /\
    frame_cryptors w' = frame_cryptors w ++ [fc] /\
    transformers w' =
      transformers w ++
      [webrtc.SetEnabled false
         (webrtc.new_FrameCryptorTransformer thread participant_id
            mediaType (AlgorithmToFrameCryptorAlgorithm algorithm)
            (rtc_key_provider key_provider))] /\
    calls w' =
      calls w ++
      [Call_new_FrameCryptorTransformer t thread participant_id mediaType
         (AlgorithmToFrameCryptorAlgorithm algorithm)
         (rtc_key_provider key_provider);
       Call_install endpoint t;
       Call_SetEnabled t false] /\
    observers w' = observers w /\
    key_providers w' = key_providers w /\
    senders w' = senders (install endpoint t w) /\
    receivers w' = receivers (install endpoint t w).
Proof.
  intros Htrack t thread mediaType fc.
  destruct (new_frame_cryptor_run w peer_factory participant_id algorithm
              key_provider endpoint track Htrack)
    as (fc0 & w1 & Hctor & Hframe & Hnew).
  pose proof (FrameCryptor_ctor_run w (webrtc.rtc_runtime peer_factory)
                participant_id (AlgorithmToFrameCryptorAlgorithm algorithm)
                (rtc_key_provider key_provider) endpoint track Htrack)
    as Hrun.
  cbv zeta in Hrun. rewrite Hrun in Hctor.
  injection Hctor as Hfc Hw1.
  destruct (install_frame endpoint (length (transformers w)) w)
    as (Hk & Htr & Ho & Hf & Hcalls).
  eexists. split; [exact Hnew |].
  rewrite <- Hw1, <- Hfc. cbn.
  rewrite Hk, Htr, Ho, Hf, Hcalls.
  repeat split; reflexivity.
Qed.

(** X3.  A constructor, and so a factory function, returns exactly when its
    endpoint exists and has a track. *)
Theorem FrameCryptor_ctor_returns_iff_track (w : World)
    (peer_factory : webrtc.PeerConnectionFactory) (participant_id : string)
    (algorithm : Algorithm) (key_provider : KeyProvider)
    (endpoint : Endpoint) :
  (is_Some (FrameCryptor_ctor (webrtc.rtc_runtime peer_factory)
              participant_id (AlgorithmToFrameCryptorAlgorithm algorithm)
              (rtc_key_provider key_provider) endpoint w) <->
   is_Some (endpoint_track w endpoint)) /\
  (is_Some (new_frame_cryptor peer_factory participant_id algorithm
              key_provider endpoint w) <->
   is_Some (endpoint_track w endpoint)).
Proof.
  destruct (endpoint_track w endpoint) as [track|] eqn:Htrack.
  - destruct (new_frame_cryptor_run w peer_factory participant_id algorithm
                key_provider endpoint track Htrack)
      as (fc & w1 & Hctor & _ & Hnew).
    rewrite Hctor, Hnew. split; split; intros _; eexists; reflexivity.
  - rewrite (FrameCryptor_ctor_needs_track w _ participant_id _ _ endpoint
               Htrack).
    rewrite (new_frame_cryptor_needs_track w peer_factory participant_id
               algorithm key_provider endpoint Htrack).
    split; split; intros [x Hx]; discriminate.
Qed.

(** X4.  A factory function called with an algorithm other than [AesCbc]
    does exactly what it does when called with [AesGcm]: the same outcome
    and the same world, whatever the other arguments are. *)
Theorem new_frame_cryptor_algorithm_collapses (w : World)
    (peer_factory : webrtc.PeerConnectionFactory) (participant_id : string)
    (algorithm : Algorithm) (key_provider : KeyProvider)
    (endpoint : Endpoint) :
  algorithm <> AesCbc ->
  new_frame_cryptor peer_factory participant_id algorithm key_provider
    endpoint w =
  new_frame_cryptor peer_factory participant_id AesGcm key_provider
    endpoint w.
Proof.
  intros Hcbc.
  destruct algorithm; [reflexivity | contradiction | reflexivity ..].
Qed.

(** X5.  In a world where the endpoint has a track, a factory function
    places the new FrameCryptor at an address that held none; the object
    records the runtime, the participant id and the key provider it was
    given, holds the endpoint it was given and no observer; and everything
    that existed is as before but that endpoint: FrameCryptors,
    transformers, native observers, key providers, the other senders and
    the other receivers. *)
Theorem new_frame_cryptor_frame (w : World)
    (peer_factory : webrtc.PeerConnectionFactory) (participant_id : string)
    (algorithm : Algorithm) (key_provider : KeyProvider)
    (endpoint : Endpoint) (track : webrtc.MediaStreamTrackInterface) :
  endpoint_track w endpoint = Some track ->
  exists (this : loc) (fc : FrameCryptor) (w' : World),
    new_frame_cryptor peer_factory participant_id algorithm key_provider
      endpoint w = Some (this, w') /\
    frame_cryptors w !! this = None /\
    frame_cryptors w' !! this = Some fc /\
    rtc_runtime_ fc = webrtc.rtc_runtime peer_factory /\
    participant_id_ fc = participant_id /\
    key_provider_ fc = rtc_key_provider key_provider /\
    match endpoint with
    | Sender s => sender_ fc = Some s /\ receiver_ fc = None
    | Receiver r => sender_ fc = None /\ receiver_ fc = Some r
    end /\
    observer_ fc = None /\
    (forall (other : loc) (fc0 : FrameCryptor),
       frame_cryptors w !! other = Some fc0 ->
       frame_cryptors w' !! other = Some fc0) /\
    (forall (q : loc) (t : webrtc.FrameCryptorTransformer),
       transformers w !! q = Some t -> transformers w' !! q = Some t) /\
    observers w' = observers w /\
    key_providers w' = key_providers w /\
    (forall s : loc,
       endpoint <> Sender s -> senders w' !! s = senders w !! s) /\
    (forall r : loc,
       endpoint <> Receiver r -> receivers w' !! r = receivers w !! r).
Proof.
  intros Htrack.
  destruct (new_frame_cryptor_effect w peer_factory participant_id algorithm
              key_provider endpoint track Htrack)
    as (w' & Hnew & Hfcs & Hts & _ & Ho & Hk & Hs & Hr).
  destruct (install_endpoints endpoint (length (transformers w)) w)
    as [Hsenders Hreceivers].
  eexists. eexists. exists w'. split; [exact Hnew |].
  split; [apply lookup_ge_None; lia |].
  split; [rewrite Hfcs; apply lookup_snoc |].
  cbn.
  split; [reflexivity |]. split; [reflexivity |]. split; [reflexivity |].
  split; [destruct endpoint; split; reflexivity |].
  split; [reflexivity |].
  split; [intros other fc0 H0; rewrite Hfcs; now apply lookup_app_l_Some |].
  split; [intros q t0 H0; rewrite Hts; now apply lookup_app_l_Some |].
  split; [exact Ho |]. split; [exact Hk |].
  split; [intros s Hne; rewrite Hs; now apply Hsenders
         | intros r Hne; rewrite Hr; now apply Hreceivers].
Qed.

End Factories.

(* ------------------------------------------------------------------ *)
(** ** Every world a program can be in *)
(* ------------------------------------------------------------------ *)

Section Reachable.

Context {E : webrtc.Engine}.

Lemma lookup_snoc_Some {A : Type} (l : list A) (i : nat) (x y : A) :
  (l ++ [y]) !! i = Some x ->
  l !! i = Some x \/ (i = length l /\ x = y).
Proof.
  intros Hi. apply lookup_app_Some in Hi as [Hi | [Hge Hi]]; [now left |].
  right. destruct (i - length l)%nat as [|k] eqn:Hk; cbn in Hi.
  - split; [lia | congruence].
  - discriminate.
Qed.

(** Consistency looks at the FrameCryptors, at which transformers exist and
    at the registrations in the log, and at nothing else. *)
Lemma consistent_transport (w w' : World) :
  consistent w ->
  frame_cryptors w' = frame_cryptors w ->
  transformers w' = transformers w ->
  (forall p : loc,
     registered_observer (calls w') p = registered_observer (calls w) p) ->
  consistent w'.
Proof.
  intros [[Hvalid Hunshared] Hobs] Hfcs Hts Hreg.
  split; [split |].
  - intros this fc Hfc. rewrite Hfcs in Hfc. rewrite Hts.
    exact (Hvalid this fc Hfc).
  - intros this other fc fc' Hfc Hfc'. rewrite Hfcs in Hfc, Hfc'.
    exact (Hunshared this other fc fc' Hfc Hfc').
  - intros this fc Hfc. rewrite Hfcs in Hfc.
    destruct (Hobs this fc Hfc) as (fc0 & Hfc0 & Ht0 & Hiff).
    exists fc0. rewrite Hfcs, Hts, Hreg.
    split; [exact Hfc0 | split; [exact Ht0 | exact Hiff]].
Qed.

Lemma new_key_provider_consistent (w w' : World)
    (options : KeyProviderOptions) (kp : KeyProvider) :
  consistent w ->
  new_key_provider options w = Some (kp, w') ->
  consistent w'.
Proof.
  intros Hcons Hrun.
  unfold new_key_provider, KeyProvider_ctor, bind, alloc, log, modify, ret
    in Hrun.
  injection Hrun as _ <-.
  apply (consistent_transport w); [exact Hcons | reflexivity .. |].
  intros p. cbn -[registered_observer].
  now rewrite registered_observer_snoc.
Qed.

Lemma state_change_consistent (w w' : World) (observer : loc)
    (participant_id : string) (state : webrtc.FrameCryptionState) :
  consistent w ->
  OnFrameCryptionStateChanged observer participant_id state w =
    Some (tt, w') ->
  consistent w'.
Proof.
  intros Hcons Hrun.
  unfold OnFrameCryptionStateChanged, bind, deref, log, modify in Hrun.
  destruct (observers w !! observer) as [self|]; [| discriminate].
  injection Hrun as <-.
  apply (consistent_transport w); [exact Hcons | reflexivity .. |].
  intros p. cbn -[registered_observer].
  now rewrite registered_observer_snoc.
Qed.

Lemma new_frame_cryptor_consistent (w w' : World)
    (peer_factory : webrtc.PeerConnectionFactory) (participant_id : string)
    (algorithm : Algorithm) (key_provider : KeyProvider)
    (endpoint : Endpoint) (this : loc) :
  consistent w ->
  new_frame_cryptor peer_factory participant_id algorithm key_provider
    endpoint w = Some (this, w') ->
  consistent w'.
Proof.
  intros [[Hvalid Hunshared] Hobs] Hrun.
  destruct (endpoint_track w endpoint) as [track|] eqn:Htrack.
  2: { rewrite (new_frame_cryptor_needs_track w peer_factory participant_id
                  algorithm key_provider endpoint Htrack) in Hrun.
       discriminate. }
  destruct (new_frame_cryptor_effect w peer_factory participant_id algorithm
              key_provider endpoint track Htrack)
    as (w0 & Hnew & Hfcs & Hts & Hcalls & _).
  destruct (new_frame_cryptor_establishes w peer_factory participant_id
              algorithm key_provider endpoint track Htrack)
    as (this1 & fc1 & w1 & Hnew1 & _ & _ & _ & Hinv1).
  assert (w0 = w') by congruence. subst w0.
  assert (w1 = w') by congruence. subst w1.
  assert (this1 = this) by congruence. subst this1.
  assert (this = length (frame_cryptors w)) by congruence. subst this.
  set (fc :=
    {| rtc_runtime_ := webrtc.rtc_runtime peer_factory;
       participant_id_ := participant_id;
       key_provider_ := rtc_key_provider key_provider;
       sender_ := match endpoint with
                  | Sender s => Some s
                  | Receiver _ => None
                  end;
       receiver_ := match endpoint with
                    | Sender _ => None
                    | Receiver r => Some r
                    end;
       e2ee_transformer_ := length (transformers w);
       observer_ := None |}) in *.
  assert (Hold_t :
    forall fc0 i, frame_cryptors w !! i = Some fc0 ->
                  (e2ee_transformer_ fc0 < length (transformers w))%nat).
  { intros fc0 i H0. apply lookup_lt_is_Some. exact (proj2 (Hvalid i fc0 H0)). }
  assert (Hnew_valid :
    one_endpoint fc /\ is_Some (transformers w' !! e2ee_transformer_ fc)).
  { split.
    - destruct endpoint; [left | right]; cbn; split;
        first [reflexivity | eexists; reflexivity].
    - rewrite Hts. cbn. eexists. apply lookup_snoc. }
  split; [split |].
  - intros i fci Hi. rewrite Hfcs in Hi.
    apply lookup_snoc_Some in Hi as [Hi | [-> ->]]; [| exact Hnew_valid].
    destruct (Hvalid i fci Hi) as [Hone [t Ht]].
    split; [exact Hone |]. rewrite Hts. exists t.
    now apply lookup_app_l_Some.
  - intros i j fci fcj Hi Hj Heq. rewrite Hfcs in Hi, Hj.
    apply lookup_snoc_Some in Hi as [Hi | [-> ->]];
      apply lookup_snoc_Some in Hj as [Hj | [-> ->]].
    + exact (Hunshared i j fci fcj Hi Hj Heq).
    + pose proof (Hold_t fci i Hi). cbn in Heq. lia.
    + pose proof (Hold_t fcj j Hj). cbn in Heq. lia.
    + reflexivity.
  - intros i fci Hi. rewrite Hfcs in Hi.
    apply lookup_snoc_Some in Hi as [Hi | [-> ->]]; [| exact Hinv1].
    destruct (Hobs i fci Hi) as (fc0 & Hfc0 & [t Ht] & Hiff).
    pose proof (Hold_t fc0 i Hfc0) as Hlt.
    exists fc0. rewrite Hfcs, Hts, Hcalls.
    split; [now apply lookup_app_l_Some |].
    split; [exists t; now apply lookup_app_l_Some |].
    assert (Hreg :
      registered_observer
        (calls w ++
         [Call_new_FrameCryptorTransformer (length (transformers w))
            (webrtc.signaling_thread (webrtc.rtc_runtime peer_factory))
            participant_id (mediaType_of_kind (webrtc.kind track))
            (AlgorithmToFrameCryptorAlgorithm algorithm)
            (rtc_key_provider key_provider);
          Call_install endpoint (length (transformers w));
          Call_SetEnabled (length (transformers w)) false])
        (e2ee_transformer_ fc0) =
      registered_observer (calls w) (e2ee_transformer_ fc0)).
    { unfold registered_observer. rewrite fold_left_app. cbn.
      rewrite (proj2 (Nat.eqb_neq _ _)) by lia.
      destruct endpoint; reflexivity. }
    rewrite Hreg. exact Hiff.
Qed.

Lemma call_method_consistent (w w' : World) (this : loc) (m : Method) :
  consistent w ->
  call_method this m w = Some (tt, w') ->
  consistent w'.
Proof.
  intros [[Hvalid Hunshared] Hobs] Hrun.
  destruct (frame_cryptors w !! this) as [fc|] eqn:Hfc.
  2: { rewrite (call_method_needs_object w this m Hfc) in Hrun.
       discriminate. }
  destruct (Hvalid this fc Hfc) as [Hone [t Ht]].
  destruct (call_method_effect w this m fc t Hfc Ht)
    as (w0 & o & t' & cs & os & Hrun0 & Hfcs & Hts & Hcalls & Hon & _).
  assert (w0 = w') by congruence. subst w0.
  destruct (call_method_preserves w this m (Hobs this fc Hfc))
    as (w1 & Hrun1 & Hinv1).
  assert (w1 = w') by congruence. subst w1.
  assert (Hback :
    forall j fcj,
      frame_cryptors w' !! j = Some fcj ->
      exists fcj0,
        frame_cryptors w !! j = Some fcj0 /\
        e2ee_transformer_ fcj = e2ee_transformer_ fcj0 /\
        sender_ fcj = sender_ fcj0 /\
        receiver_ fcj = receiver_ fcj0 /\
        (j <> this -> fcj = fcj0)).
  { intros j fcj Hj. rewrite Hfcs in Hj.
    destruct (decide (j = this)) as [-> | Hne].
    - rewrite (lookup_insert_valid _ _ fc _ Hfc) in Hj.
      injection Hj as <-. exists fc. now repeat split.
    - rewrite list_lookup_insert_ne in Hj by congruence.
      exists fcj. now repeat split. }
  assert (Hkeep :
    forall q, is_Some (transformers w !! q) ->
              is_Some (transformers w' !! q)).
  { intros q Hq. apply lookup_lt_is_Some. rewrite Hts, length_insert.
    now apply lookup_lt_is_Some. }
  split; [split |].
  - intros j fcj Hj.
    destruct (Hback j fcj Hj) as (fcj0 & Hj0 & He & Hs & Hr & _).
    destruct (Hvalid j fcj0 Hj0) as [Hone0 Ht0].
    split.
    + unfold one_endpoint in *. now rewrite Hs, Hr.
    + rewrite He. now apply Hkeep.
  - intros i j fci fcj Hi Hj Heq.
    destruct (Hback i fci Hi) as (fci0 & Hi0 & Hei & _).
    destruct (Hback j fcj Hj) as (fcj0 & Hj0 & Hej & _).
    apply (Hunshared i j fci0 fcj0 Hi0 Hj0). congruence.
  - intros j fcj Hj.
    destruct (decide (j = this)) as [-> | Hne]; [exact Hinv1 |].
    destruct (Hback j fcj Hj) as (fcj0 & Hj0 & _ & _ & _ & Hsame).
    rewrite (Hsame Hne) in Hj. clear fcj Hsame.
    destruct (Hobs j fcj0 Hj0) as (fcx & Hfcx & Htx & Hiff).
    assert (fcx = fcj0) by congruence. subst fcx.
    assert (Hp : e2ee_transformer_ fcj0 <> e2ee_transformer_ fc).
    { intros Heq. apply Hne.
      exact (Hunshared j this fcj0 fc Hj0 Hfc Heq). }
    exists fcj0. split; [exact Hj |].
    split; [now apply Hkeep |].
    rewrite Hcalls.
    now rewrite (registered_observer_other (e2ee_transformer_ fc)
                   (e2ee_transformer_ fcj0) (calls w) cs Hon Hp).
Qed.

Lemma reachable_consistent (w : World) : reachable w -> consistent w.
Proof.
  induction 1 as [w Hnil | w w' options kp _ IH Hrun
                 | w w' pf pid alg kp ep this _ IH Hrun
                 | w w' this m _ IH Hrun
                 | w w' observer pid state _ IH Hrun
                 | w f g _ IH].
  - split; [split |].
    + intros this fc Hfc. rewrite Hnil in Hfc. discriminate.
    + intros this other fc fc' Hfc. rewrite Hnil in Hfc. discriminate.
    + intros this fc Hfc. rewrite Hnil in Hfc. discriminate.
  - exact (new_key_provider_consistent w w' options kp IH Hrun).
  - exact (new_frame_cryptor_consistent w w' pf pid alg kp ep this IH Hrun).
  - exact (call_method_consistent w w' this m IH Hrun).
  - exact (state_change_consistent w w' observer pid state IH Hrun).
  - apply (consistent_transport w); [exact IH | reflexivity ..].
Qed.

(** X6.  In every world a program can be in: each FrameCryptor holds one
    endpoint and points to a transformer that exists, no two FrameCryptors
    share a transformer, the [observer_] of each FrameCryptor is non-null
    exactly when an observer is registered on its transformer, and every
    method of every FrameCryptor returns, in a world a program can be
    in. *)
Theorem reachable_worlds_are_consistent (w : World) :
  reachable w ->
  well_formed w /\
  (forall (this : loc) (fc : FrameCryptor),
     frame_cryptors w !! this = Some fc ->
     observer_invariant w this /\
     forall m : Method,
       exists w' : World,
         call_method this m w = Some (tt, w') /\ reachable w').
Proof.
  intros Hreach.
  destruct (reachable_consistent w Hreach) as [Hwf Hobs].
  split; [exact Hwf |].
  intros this fc Hfc. split; [exact (Hobs this fc Hfc) |].
  intros m.
  destruct (proj1 Hwf this fc Hfc) as [_ [t Ht]].
  destruct (call_method_effect w this m fc t Hfc Ht) as (w' & Hrest).
  destruct Hrest as (_ & _ & _ & _ & Hrun & _).
  exists w'. split; [exact Hrun |].
  exact (reachable_call_method w w' this m Hreach Hrun).
Qed.

End Reachable.

Lemma reference_world3_reachable :
  reachable (E := reference.engine) reference.world3.
Proof.
  apply (reachable_new_frame_cryptor (E := reference.engine)
           reference.world2 reference.world3 7%nat "bob"%string AesCbc
           {| impl_ := 0%nat |} (Receiver 0%nat) 1%nat); [| reflexivity].
  apply (reachable_call_method (E := reference.engine)
           reference.world1 reference.world2 0%nat
           (Method_register_observer 42%nat)); [| reflexivity].
  apply (reachable_new_frame_cryptor (E := reference.engine)
           reference.world0 reference.world1 7%nat "alice"%string Sm4Gcm
           {| impl_ := 0%nat |} (Sender 0%nat) 0%nat); [| reflexivity].
  apply reachable_start. reflexivity.
Qed.

Lemma reachable_worlds_are_consistent_witness :
  reachable (E := reference.engine) reference.world3 /\
  well_formed (E := reference.engine) reference.world3 /\
  observer_invariant (E := reference.engine) reference.world3 0%nat /\
  observer_invariant (E := reference.engine) reference.world3 1%nat /\
  exists w' : World (E := reference.engine),
    call_method 1%nat Method_dtor reference.world3 = Some (tt, w') /\
    reachable w'.
Proof.
  split; [exact reference_world3_reachable |].
  destruct (reachable_worlds_are_consistent (E := reference.engine)
              reference.world3 reference_world3_reachable) as [Hwf Hall].
  split; [exact Hwf |].
  split; [exact (proj1 (Hall 0%nat reference.fc2 eq_refl)) |].
  split; [exact (proj1 (Hall 1%nat reference.fc3 eq_refl)) |].
  exact (proj2 (Hall 1%nat reference.fc3 eq_refl) Method_dtor).
Defined.

(* ------------------------------------------------------------------ *)
(** ** Observers and key providers, end to end *)
(* ------------------------------------------------------------------ *)

Section EndToEnd.

Context {E : webrtc.Engine}.

(** X7.  After [register_observer(box)], the observer registered on the
    transformer is a native observer that forwards to [box]: a state change
    reported to it reaches [box], whatever was registered before. *)
Theorem registered_observer_forwards_to_the_box (w : World) (this : loc)
    (box : RustBox) (fc : FrameCryptor)
    (t : webrtc.FrameCryptorTransformer) (participant_id : string)
    (state : webrtc.FrameCryptionState) :
  frame_cryptors w !! this = Some fc ->
  transformers w !! e2ee_transformer_ fc = Some t ->
  exists (w1 : World) (o : loc),
    register_observer this box w = Some (tt, w1) /\
    registered_observer (calls w1) (e2ee_transformer_ fc) = Some o /\
    observers w1 !! o = Some (NativeFrameCryptorObserver.mk box this) /\
    OnFrameCryptionStateChanged o participant_id state w1 =
      Some (tt,
            with_calls
              (fun cs =>
                 cs ++ [Call_on_frame_cryption_state_change box
                          participant_id
                          (static_cast_FrameCryptionState state)])
              w1).
Proof.
  intros Hfc Ht.
  pose proof (register_observer_run w this fc t box Hfc Ht) as Hrun.
  cbv zeta in Hrun.
  eexists. exists (length (observers w)).
  split; [exact Hrun |].
  assert (Hobj :
    observers
      (with_calls
         (fun cs =>
            cs ++ [Call_RegisterFrameCryptorTransformerObserver
                     (e2ee_transformer_ fc) (length (observers w))])
         (with_transformers
            (fun h =>
               <[e2ee_transformer_ fc :=
                   webrtc.RegisterFrameCryptorTransformerObserver
                     (length (observers w)) t]> h)
            (with_frame_cryptors
               (fun h =>
                  <[this := set_observer_ (Some (length (observers w))) fc]>
                    h)
               (with_observers
                  (fun h => h ++ [NativeFrameCryptorObserver.mk box this])
                  w))))
      !! length (observers w) =
    Some (NativeFrameCryptorObserver.mk box this))
    by (cbn; apply lookup_snoc).
  split.
  { cbn -[registered_observer]. rewrite registered_observer_snoc. cbn.
    now rewrite Nat.eqb_refl. }
  split; [exact Hobj |].
  unfold OnFrameCryptionStateChanged.
  rewrite (bind_run _ _ _ _ _ (deref_run observers _ _ _ Hobj)).
  reflexivity.
Qed.

(** X8.  On a FrameCryptor without observer, [register_observer] followed
    by [unregister_observer] returns, leaves the FrameCryptor heap exactly
    as it was and no observer registered, and has made two calls on the
    transformer: the registration, then the unregistration. *)
Theorem register_then_unregister (w : World) (this : loc) (box : RustBox)
    (fc : FrameCryptor) (t : webrtc.FrameCryptorTransformer) :
  frame_cryptors w !! this = Some fc ->
  transformers w !! e2ee_transformer_ fc = Some t ->
  observer_ fc = None ->
  exists w' : World,
    (register_observer this box ;; unregister_observer this) w =
      Some (tt, w') /\
    frame_cryptors w' = frame_cryptors w /\
    registered_observer (calls w') (e2ee_transformer_ fc) = None /\
    calls w' =
      calls w ++
      [Call_RegisterFrameCryptorTransformerObserver
         (e2ee_transformer_ fc) (length (observers w));
       Call_UnRegisterFrameCryptorTransformerObserver
         (e2ee_transformer_ fc)] /\
    transformers w' =
      <[e2ee_transformer_ fc :=
          webrtc.UnRegisterFrameCryptorTransformerObserver
            (webrtc.RegisterFrameCryptorTransformerObserver
               (length (observers w)) t)]> (transformers w).
Proof.
  intros Hfc Ht Hobs.
  pose proof (register_observer_run w this fc t box Hfc Ht) as Hrun.
  cbv zeta in Hrun.
  rewrite (bind_run _ _ _ _ _ Hrun).
  set (o := length (observers w)) in *.
  set (fc1 := set_observer_ (Some o) fc).
  match goal with
  | |- context [unregister_observer this ?w1] =>
      assert (Hfc1 : frame_cryptors w1 !! this = Some fc1)
        by (cbn; now apply lookup_insert_valid with fc);
      assert (Ht1 :
        transformers w1 !! e2ee_transformer_ fc1 =
        Some (webrtc.RegisterFrameCryptorTransformerObserver o t))
        by (cbn; now apply lookup_insert_valid with t);
      rewrite (unregister_observer_run w1 this fc1 _ Hfc1 Ht1)
  end.
  eexists. split; [reflexivity |].
  cbn -[registered_observer].
  split.
  { rewrite list_insert_insert_eq.
    replace (set_observer_ None fc1) with fc.
    - now apply list_insert_id.
    - destruct fc; cbn in Hobs |- *. now subst. }
  split.
  { rewrite registered_observer_snoc. cbn. now rewrite Nat.eqb_refl. }
  split; [now rewrite <- app_assoc |].
  now rewrite list_insert_insert_eq.
Qed.

(** X9.  On a FrameCryptor without observer, [unregister_observer] still
    makes its call on the transformer, while the destructor returns
    without changing anything. *)
Theorem unregister_is_unconditional_destructor_is_not (w : World)
    (this : loc) (fc : FrameCryptor) (t : webrtc.FrameCryptorTransformer) :
  frame_cryptors w !! this = Some fc ->
  transformers w !! e2ee_transformer_ fc = Some t ->
  observer_ fc = None ->
  unregister_observer this w =
    Some (tt,
          with_calls
            (fun cs =>
               cs ++ [Call_UnRegisterFrameCryptorTransformerObserver
                        (e2ee_transformer_ fc)])
            (with_transformers
               (fun h =>
                  <[e2ee_transformer_ fc :=
                      webrtc.UnRegisterFrameCryptorTransformerObserver t]>
                    h)
               w)) /\
  FrameCryptor_dtor this w = Some (tt, w).
Proof.
  intros Hfc Ht Hobs. split.
  - rewrite (unregister_observer_run w this fc t Hfc Ht).
    assert (Hsame :
      <[this := set_observer_ None fc]> (frame_cryptors w) =
      frame_cryptors w).
    { rewrite <- Hobs, set_observer_same. now apply list_insert_id. }
    unfold with_calls, with_transformers, with_frame_cryptors. cbn.
    now rewrite Hsame.
  - rewrite (FrameCryptor_dtor_run w this fc Hfc). now rewrite Hobs.
Qed.

(** X10.  A key provider made from [options] and then given to a factory
    function: the FrameCryptor the factory returns keeps the pointer to the
    one engine key provider made from the translation of [options], an
    object that did not exist before, and the transformer that this
    FrameCryptor points to with [e2ee_transformer_], created by this call,
    is built on that same pointer. *)
Theorem key_provider_reaches_the_transformer (w : World)
    (options : KeyProviderOptions)
    (peer_factory : webrtc.PeerConnectionFactory) (participant_id : string)
    (algorithm : Algorithm) (endpoint : Endpoint)
    (track : webrtc.MediaStreamTrackInterface) :
  endpoint_track w endpoint = Some track ->
  exists (kp : KeyProvider) (w1 : World) (this : loc) (w2 : World)
         (rtc_options : webrtc.KeyProviderOptions),
    new_key_provider options w = Some (kp, w1) /\
    new_frame_cryptor peer_factory participant_id algorithm kp endpoint w1 =
      Some (this, w2) /\
    webrtc.shared_key rtc_options = shared_key options /\
    webrtc.ratchet_salt rtc_options = ratchet_salt options /\
    webrtc.ratchet_window_size rtc_options = ratchet_window_size options /\
    webrtc.failure_tolerance rtc_options = failure_tolerance options /\
    key_providers w !! rtc_key_provider kp = None /\
    key_providers w2 !! rtc_key_provider kp =
      Some (webrtc.new_DefaultKeyProviderImpl rtc_options) /\
    transformers w2 !! length (transformers w) =
      Some (webrtc.SetEnabled false
              (webrtc.new_FrameCryptorTransformer
                 (webrtc.signaling_thread (webrtc.rtc_runtime peer_factory))
                 participant_id (mediaType_of_kind (webrtc.kind track))
                 (AlgorithmToFrameCryptorAlgorithm algorithm)
                 (rtc_key_provider kp))) /\
    exists fc : FrameCryptor,
      frame_cryptors w1 !! this = None /\
      frame_cryptors w2 !! this = Some fc /\
      key_provider_ fc = rtc_key_provider kp /\
      e2ee_transformer_ fc = length (transformers w) /\
      transformers w1 !! e2ee_transformer_ fc = None /\
      transformers w2 !! e2ee_transformer_ fc =
        Some (webrtc.SetEnabled false
                (webrtc.new_FrameCryptorTransformer
                   (webrtc.signaling_thread
                      (webrtc.rtc_runtime peer_factory))
                   participant_id (mediaType_of_kind (webrtc.kind track))
                   (AlgorithmToFrameCryptorAlgorithm algorithm)
                   (key_provider_ fc))) /\
      calls w2 =
        calls w ++
        [Call_new_DefaultKeyProviderImpl (key_provider_ fc) rtc_options;
         Call_new_FrameCryptorTransformer (e2ee_transformer_ fc)
           (webrtc.signaling_thread (webrtc.rtc_runtime peer_factory))
           participant_id (mediaType_of_kind (webrtc.kind track))
           (AlgorithmToFrameCryptorAlgorithm algorithm) (key_provider_ fc);
         match endpoint with
         | Sender s =>
             Call_SetEncoderToPacketizerFrameTransformer
               s (e2ee_transformer_ fc)
         | Receiver r =>
             Call_SetDepacketizerToDecoderFrameTransformer
               r (e2ee_transformer_ fc)
         end;
         Call_SetEnabled (e2ee_transformer_ fc) false].
Proof.
  intros Htrack.
  assert (Hkp :
    exists kp w1,
      new_key_provider options w = Some (kp, w1) /\
      kp = {| impl_ := length (key_providers w) |} /\
      endpoint_track w1 endpoint = Some track /\
      transformers w1 = transformers w /\
      key_providers w1 =
        key_providers w ++
        [webrtc.new_DefaultKeyProviderImpl
           (webrtc.set_failure_tolerance (failure_tolerance options)
              (webrtc.set_ratchet_window_size (ratchet_window_size options)
                 (webrtc.set_ratchet_salt
                    (std_copy_back_inserter (ratchet_salt options) [])
                    (webrtc.set_shared_key (shared_key options)
                       webrtc.KeyProviderOptions_default))))] /\
      calls w1 =
        calls w ++
        [Call_new_DefaultKeyProviderImpl (length (key_providers w))
           (webrtc.set_failure_tolerance (failure_tolerance options)
              (webrtc.set_ratchet_window_size (ratchet_window_size options)
                 (webrtc.set_ratchet_salt
                    (std_copy_back_inserter (ratchet_salt options) [])
                    (webrtc.set_shared_key (shared_key options)
                       webrtc.KeyProviderOptions_default))))]).
  { eexists. eexists. split; [reflexivity |].
    split; [reflexivity |].
    split; [destruct endpoint; exact Htrack |].
    split; [reflexivity |]. split; reflexivity. }
  destruct Hkp as (kp & w1 & Hnew & -> & Htrack1 & Hts1 & Hks1 & Hcs1).
  destruct (new_frame_cryptor_effect w1 peer_factory participant_id
              algorithm {| impl_ := length (key_providers w) |} endpoint
              track Htrack1)
    as (w2 & Hfactory & Hfcs2 & Hts2 & Hcs2 & _ & Hks2 & _).
  exists {| impl_ := length (key_providers w) |}, w1,
    (length (frame_cryptors w1)), w2,
    (webrtc.set_failure_tolerance (failure_tolerance options)
       (webrtc.set_ratchet_window_size (ratchet_window_size options)
          (webrtc.set_ratchet_salt
             (std_copy_back_inserter (ratchet_salt options) [])
             (webrtc.set_shared_key (shared_key options)
                webrtc.KeyProviderOptions_default)))).
  split; [exact Hnew |].
  split; [exact Hfactory |].
  split; [reflexivity |].
  split; [cbn; now rewrite std_copy_back_inserter_app |].
  split; [reflexivity |].
  split; [reflexivity |].
  split; [apply lookup_ge_None; cbn; lia |].
  split; [rewrite Hks2, Hks1; apply lookup_snoc |].
  split; [rewrite Hts2, Hts1; apply lookup_snoc |].
  eexists.
  split; [apply lookup_ge_None; lia |].
  split; [rewrite Hfcs2; apply lookup_snoc |].
  cbn.
  split; [reflexivity |].
  split; [now rewrite Hts1 |].
  split; [rewrite Hts1; apply lookup_ge_None; lia |].
  split; [rewrite Hts2; apply lookup_snoc |].
  rewrite Hcs2, Hcs1, Hts1, <- app_assoc.
  destruct endpoint; reflexivity.
Qed.

End EndToEnd.

Lemma new_frame_cryptor_algorithm_collapses_witness :
  Sm4Cbc <> AesCbc /\
  new_frame_cryptor (E := reference.engine) 7%nat "bob"%string Sm4Cbc
    {| impl_ := 0%nat |} (Receiver 0%nat) reference.world2 =
  new_frame_cryptor (E := reference.engine) 7%nat "bob"%string AesGcm
    {| impl_ := 0%nat |} (Receiver 0%nat) reference.world2.
Proof.
  assert (Hne : Sm4Cbc <> AesCbc) by discriminate.
  split; [exact Hne |].
  exact (new_frame_cryptor_algorithm_collapses (E := reference.engine)
           reference.world2 7%nat "bob"%string Sm4Cbc {| impl_ := 0%nat |}
           (Receiver 0%nat) Hne).
Defined.

Lemma new_frame_cryptor_frame_witness :
  endpoint_track (E := reference.engine) reference.world2 (Receiver 1%nat) =
    Some "data"%string /\
  exists (this : loc) (fc : FrameCryptor (E := reference.engine))
         (w' : World (E := reference.engine)),
    new_frame_cryptor (E := reference.engine) 7%nat "carol"%string AesCbc
      {| impl_ := 0%nat |} (Receiver 1%nat) reference.world2 =
      Some (this, w') /\
    frame_cryptors reference.world2 !! this = None /\
    frame_cryptors w' !! this = Some fc /\
    sender_ fc = None /\
    receiver_ fc = Some 1%nat /\
    frame_cryptors w' !! 0%nat = Some reference.fc2 /\
    transformers w' !! 0%nat = Some reference.t2 /\
    senders w' !! 0%nat = senders reference.world2 !! 0%nat /\
    receivers w' !! 0%nat = receivers reference.world2 !! 0%nat.
Proof.
  split; [reflexivity |].
  destruct (new_frame_cryptor_frame (E := reference.engine)
              reference.world2 7%nat "carol"%string AesCbc
              {| impl_ := 0%nat |} (Receiver 1%nat) "data"%string eq_refl)
    as (this & fc & w' & Hnew & Hfresh & Hthis & _ & _ & _ & [Hs Hr] & _
        & Hfcs & Hts & _ & _ & Hsenders & Hreceivers).
  exists this, fc, w'.
  split; [exact Hnew |]. split; [exact Hfresh |]. split; [exact Hthis |].
  split; [exact Hs |]. split; [exact Hr |].
  split; [apply Hfcs; reflexivity |].
  split; [apply Hts; reflexivity |].
  split; [apply Hsenders; discriminate | apply Hreceivers; discriminate].
Defined.

Lemma registered_observer_forwards_to_the_box_witness :
  (frame_cryptors reference.world2 !! 0%nat = Some reference.fc2 /\
   transformers reference.world2 !! e2ee_transformer_ reference.fc2 =
     Some reference.t2) /\
  exists (w1 : World (E := reference.engine)) (o : loc),
    register_observer 0%nat 43%nat reference.world2 = Some (tt, w1) /\
    registered_observer (calls w1) 0%nat = Some o /\
    observers w1 !! o = Some (NativeFrameCryptorObserver.mk 43%nat 0%nat) /\
    OnFrameCryptionStateChanged o "alice"%string
      {| webrtc.underlying := 5 |} w1 =
      Some (tt,
            with_calls
              (fun cs =>
                 cs ++ [Call_on_frame_cryption_state_change 43%nat
                          "alice"%string {| repr := 5 |}])
              w1).
Proof.
  split; [split; reflexivity |].
  exact (registered_observer_forwards_to_the_box (E := reference.engine)
           reference.world2 0%nat 43%nat reference.fc2 reference.t2
           "alice"%string {| webrtc.underlying := 5 |} eq_refl eq_refl).
Defined.

Lemma register_then_unregister_witness :
  (frame_cryptors reference.world1 !! 0%nat = Some reference.fc1 /\
   transformers reference.world1 !! e2ee_transformer_ reference.fc1 =
     Some reference.t1 /\
   observer_ reference.fc1 = None) /\
  exists w' : World (E := reference.engine),
    (register_observer 0%nat 42%nat ;; unregister_observer 0%nat)
      reference.world1 = Some (tt, w') /\
    frame_cryptors w' = frame_cryptors reference.world1 /\
    registered_observer (calls w') 0%nat = None.
Proof.
  split; [repeat split; reflexivity |].
  destruct (register_then_unregister (E := reference.engine)
              reference.world1 0%nat 42%nat reference.fc1 reference.t1
              eq_refl eq_refl eq_refl)
    as (w' & Hrun & Hfcs & Hreg & _).
  exists w'. split; [exact Hrun |]. split; [exact Hfcs | exact Hreg].
Defined.

Lemma unregister_is_unconditional_destructor_is_not_witness :
  (frame_cryptors reference.world1 !! 0%nat = Some reference.fc1 /\
   transformers reference.world1 !! e2ee_transformer_ reference.fc1 =
     Some reference.t1 /\
   observer_ reference.fc1 = None) /\
  unregister_observer 0%nat reference.world1 =
    Some (tt,
          with_calls
            (fun cs =>
               cs ++ [Call_UnRegisterFrameCryptorTransformerObserver 0%nat])
            (with_transformers
               (fun h =>
                  <[0%nat :=
                      webrtc.UnRegisterFrameCryptorTransformerObserver
                        (Engine := reference.engine) reference.t1]> h)
               reference.world1)) /\
  FrameCryptor_dtor 0%nat reference.world1 = Some (tt, reference.world1).
Proof.
  split; [repeat split; reflexivity |].
  exact (unregister_is_unconditional_destructor_is_not
           (E := reference.engine) reference.world1 0%nat reference.fc1
           reference.t1 eq_refl eq_refl eq_refl).
Defined.

Lemma key_provider_reaches_the_transformer_witness :
  endpoint_track (E := reference.engine) reference.world0 (Sender 0%nat) =
    Some "audio"%string /\
  exists (kp : KeyProvider) (w1 : World (E := reference.engine))
         (this : loc) (w2 : World (E := reference.engine))
         (fc : FrameCryptor (E := reference.engine)),
    new_key_provider (E := reference.engine)
      {| shared_key := true; ratchet_salt := [x0a; x0b]%byte;
         ratchet_window_size := 16; failure_tolerance := -1 |}
      reference.world0 = Some (kp, w1) /\
    new_frame_cryptor (E := reference.engine) 7%nat "alice"%string AesCbc
      kp (Sender 0%nat) w1 =
      Some (this, w2) /\
    key_providers w2 !! rtc_key_provider kp =
      Some {| webrtc.shared_key := true;
              webrtc.ratchet_salt := [x0a; x0b]%byte;
              webrtc.ratchet_window_size := 16;
              webrtc.failure_tolerance := -1 |} /\
    frame_cryptors w2 !! this = Some fc /\
    key_provider_ fc = rtc_key_provider kp /\
    reference.key_provider_ <$> transformers w2 !! e2ee_transformer_ fc =
      Some (rtc_key_provider kp).
Proof.
  split; [reflexivity |].
  destruct (key_provider_reaches_the_transformer (E := reference.engine)
              reference.world0
              {| shared_key := true; ratchet_salt := [x0a; x0b]%byte;
                 ratchet_window_size := 16; failure_tolerance := -1 |}
              7%nat "alice"%string AesCbc (Sender 0%nat) "audio"%string
              eq_refl)
    as (kp & w1 & this & w2 & rtc_options & Hkp & Hfc & H1 & H2 & H3 & H4
        & _ & Hks & _ & fc & _ & Hthis & Hkey & _ & _ & Hts & _).
  exists kp, w1, this, w2, fc.
  split; [exact Hkp |]. split; [exact Hfc |].
  split.
  - refine (eq_trans Hks _). cbn. f_equal.
    destruct rtc_options; cbn in *. now subst.
  - split; [exact Hthis |]. split; [exact Hkey |].
    refine (eq_trans (f_equal (fmap reference.key_provider_) Hts) _).
    cbn. now rewrite Hkey.
Defined.
